(** * Environment lighting: atlas layout and prefiltering pipeline

    A shallow embedding of [src/graphics/env-lighting.js].

    JavaScript numbers are modelled as exact rationals ([Q]): every number
    that occurs here (texture sizes, sample counts, rectangle coordinates)
    is far inside the range where doubles are exact.  Textures and [Vec4]
    rectangles are JavaScript objects, so they live in a store and are
    passed around by reference; the calls a function makes (GPU markers,
    texture creation and destruction, [reprojectTexture]) are collected in
    order as a list of events. *)

From Stdlib Require Import ZArith QArith Qround Qminmax String List Bool Lia Lqa.
From stdpp Require Import base list.
Import ListNotations.

Open Scope string_scope.
Open Scope list_scope.
Open Scope Q_scope.

(** ** JavaScript values used as flags *)

(** Device capabilities and texture flags are read for their truthiness
    only: an extension object, [null], [undefined], or a boolean. *)
Inductive JsVal : Type :=
| JsUndefined
| JsNull
| JsBool (b : bool)
| JsObject.

Definition truthy (v : JsVal) : bool :=
  match v with
  | JsBool b => b
  | JsObject => true
  | JsUndefined | JsNull => false
  end.

(** [a && b] evaluates to [a] when [a] is falsy and to [b] otherwise. *)
Definition js_and (a b : JsVal) : JsVal := if truthy a then b else a.

(** [!!v] *)
Definition js_notnot (v : JsVal) : JsVal := JsBool (truthy v).

(** A number is falsy exactly when it is zero. *)
Definition num_truthy (q : Q) : bool := negb (Qnum q =? 0)%Z.

(** [n || d] for an optional number [n]. *)
Definition num_or (n : option Q) (d : Q) : Q :=
  match n with
  | Some q => if num_truthy q then q else d
  | None => d
  end.

(** [s || d] for an optional string [s]; the empty string is falsy. *)
Definition str_or (s : option string) (d : string) : string :=
  match s with
  | Some EmptyString => d
  | Some s' => s'
  | None => d
  end.

(** 32-bit views of an integer, and the signed right shift [a >> b]. *)
Definition toUint32 (a : Z) : Z := (a mod 2 ^ 32)%Z.
Definition toInt32 (a : Z) : Z := ((a + 2 ^ 31) mod 2 ^ 32 - 2 ^ 31)%Z.
Definition js_shr (a b : Z) : Z := Z.shiftr (toInt32 a) (Z.land (toUint32 b) 31).

(** ** Constants imported from [./constants] *)

(** Modelled from the spec: the constants module is outside the file
    embedded here; each family is an enumeration holding the names
    [env-lighting.js] imports and one constructor for every other value a
    texture may carry. *)
Inductive PixelFormat : Type :=
| PIXELFORMAT_R8_G8_B8_A8
| PIXELFORMAT_RGBA16F
| PIXELFORMAT_RGBA32F
| PIXELFORMAT_other (tag : nat).

Inductive TextureType : Type :=
| TEXTURETYPE_DEFAULT
| TEXTURETYPE_RGBM
| TEXTURETYPE_other (tag : nat).

Inductive TextureProjection : Type :=
| TEXTUREPROJECTION_EQUIRECT
| TEXTUREPROJECTION_other (tag : nat).

Inductive AddressMode : Type :=
| ADDRESS_CLAMP_TO_EDGE
| ADDRESS_other (tag : nat).

Definition PixelFormat_eqb (a b : PixelFormat) : bool :=
  match a, b with
  | PIXELFORMAT_R8_G8_B8_A8, PIXELFORMAT_R8_G8_B8_A8 => true
  | PIXELFORMAT_RGBA16F, PIXELFORMAT_RGBA16F => true
  | PIXELFORMAT_RGBA32F, PIXELFORMAT_RGBA32F => true
  | PIXELFORMAT_other m, PIXELFORMAT_other n => Nat.eqb m n
  | _, _ => false
  end.

(** ** Devices, textures, rectangles *)

Record Device : Type := mkDevice {
  extTextureHalfFloat : JsVal;
  textureHalfFloatRenderable : JsVal;
  extTextureFloat : JsVal;
  textureFloatRenderable : JsVal
}.

(** Debug names are kept as the expressions that build them: a literal,
    the template [`lighting-${size}`], or a name with a suffix appended. *)
Inductive DebugName : Type :=
| NameUndefined
| NameLiteral (s : string)
| NameLighting (size : Q)
| NameAppend (n : DebugName) (suffix : string).

(** Modelled from the spec: the [Texture] class ([./texture.js]) is
    outside the file embedded here.  A texture exposes the configuration
    it was constructed with, its device, and [destroy()], which releases
    its storage; a field the constructor call leaves out reads
    [undefined]. *)
Record Texture : Type := mkTexture {
  tex_device : Device;
  tex_name : DebugName;
  tex_cubemap : JsVal;
  tex_width : Q;
  tex_height : Q;
  tex_format : PixelFormat;
  tex_type : TextureType;
  tex_projection : option TextureProjection;
  tex_addressU : AddressMode;
  tex_addressV : AddressMode;
  tex_fixCubemapSeams : JsVal;
  tex_mipmaps : JsVal;
  tex_destroyed : bool
}.

Definition destroyed (t : Texture) : Texture :=
  mkTexture (tex_device t) (tex_name t) (tex_cubemap t) (tex_width t)
    (tex_height t) (tex_format t) (tex_type t) (tex_projection t)
    (tex_addressU t) (tex_addressV t) (tex_fixCubemapSeams t)
    (tex_mipmaps t) true.

(** Modelled from the spec: the [Vec4] class ([../math/vec4.js]) is
    outside the file embedded here; it is a mutable record of four
    numbers, used as a rectangle (x, y, width [z], height [w]). *)
Module Vec4.

Record t : Type := mk { x : Q; y : Q; z : Q; w : Q }.

Definition set_y (v : t) (q : Q) : t := mk (x v) q (z v) (w v).
Definition set_z (v : t) (q : Q) : t := mk (x v) (y v) q (w v).
Definition set_w (v : t) (q : Q) : t := mk (x v) (y v) (z v) q.

End Vec4.

(** References into the store. *)
Definition TexRef : Type := nat.
Definition VecRef : Type := nat.

Record World : Type := mkWorld {
  textures : list Texture;
  vecs : list Vec4.t
}.

(** ** The options bags *)

(** The [options] argument of [generateAtlas] and
    [generatePrefilteredAtlas]; the argument itself may be [undefined]. *)
Record Options : Type := mkOptions {
  opt_target : option TexRef;
  opt_numSamples : option Q;
  opt_distribution : option string;
  opt_legacyAmbient : JsVal
}.

(** The object literal handed to [reprojectTexture]: [rect] is a
    reference to the caller's rectangle object. *)
Record ReprojectOptions : Type := mkReprojectOptions {
  ro_numSamples : option Q;
  ro_distribution : option string;
  ro_specularPower : option Q;
  ro_rect : option VecRef;
  ro_seamPixels : option Q
}.

(** What one [reprojectTexture] call works with: the rectangle as it
    reads while the call runs. *)
Record ReprojectCall : Type := mkReprojectCall {
  rc_source : option TexRef;
  rc_target : TexRef;
  rc_numSamples : option Q;
  rc_distribution : option string;
  rc_specularPower : option Q;
  rc_rect : option Vec4.t;
  rc_seamPixels : option Q
}.

Inductive Event : Type :=
| EvPushGpuMarker (d : Device) (label : string)
| EvPopGpuMarker (d : Device)
| EvNewTexture (r : TexRef)
| EvDestroy (r : TexRef)
| EvReproject (c : ReprojectCall).

(** ** A state monad with exceptions and an event log *)

Inductive Result (A : Type) : Type :=
| Ok (a : A) (w : World) (evs : list Event)
| Throw (msg : string) (w : World) (evs : list Event).
Arguments Ok {A} a w evs.
Arguments Throw {A} msg w evs.

Definition M (A : Type) : Type := World -> Result A.

#[global] Instance M_ret : MRet M := fun A (a : A) w => Ok a w [].

(** Events of the first part of a sequence come before those of the rest. *)
Definition logBefore {A} (evs1 : list Event) (r : Result A) : Result A :=
  match r with
  | Ok a w evs2 => Ok a w (evs1 ++ evs2)
  | Throw msg w evs2 => Throw msg w (evs1 ++ evs2)
  end.

#[global] Instance M_bind : MBind M := fun A B (k : A -> M B) (m : M A) w =>
  match m w with
  | Ok a w1 evs1 => logBefore evs1 (k a w1)
  | Throw msg w1 evs1 => Throw msg w1 evs1
  end.

Definition throw {A} (msg : string) : M A := fun w => Throw msg w [].
Definition emit (e : Event) : M unit := fun w => Ok tt w [e].

(** Property access on a texture reference. *)
Definition readTexture (r : TexRef) : M Texture :=
  fun w =>
    match textures w !! r with
    | Some t => Ok t w []
    | None => Throw "TypeError" w []
    end.

(** [new Texture(device, {...})] *)
Definition newTexture (t : Texture) : M TexRef :=
  fun w =>
    let r := length (textures w) in
    Ok r (mkWorld (textures w ++ [t]) (vecs w)) [EvNewTexture r].

(** [target.destroy()] *)
Definition destroyTexture (r : TexRef) : M unit :=
  fun w =>
    match textures w !! r with
    | Some t => Ok tt (mkWorld (<[r := destroyed t]> (textures w)) (vecs w))
                  [EvDestroy r]
    | None => Throw "TypeError" w []
    end.

(** [new Vec4(x, y, z, w)] *)
Definition newVec4 (x y z w : Q) : M VecRef :=
  fun wd =>
    Ok (length (vecs wd))
       (mkWorld (textures wd) (vecs wd ++ [Vec4.mk x y z w])) [].

Definition readVec4 (r : VecRef) : M Vec4.t :=
  fun wd =>
    match vecs wd !! r with
    | Some v => Ok v wd []
    | None => Throw "TypeError" wd []
    end.

Definition writeVec4 (r : VecRef) (v : Vec4.t) : M unit :=
  fun wd =>
    match vecs wd !! r with
    | Some _ => Ok tt (mkWorld (textures wd) (<[r := v]> (vecs wd))) []
    | None => Throw "TypeError" wd []
    end.

(** [Debug.pushGpuMarker(device, label)] and [Debug.popGpuMarker(device)] *)
Definition pushGpuMarker (d : Device) (label : string) : M unit :=
  emit (EvPushGpuMarker d label).
Definition popGpuMarker (d : Device) : M unit :=
  emit (EvPopGpuMarker d).

(** Modelled from the spec: the convolution primitive [reprojectTexture]
    ([./reproject-texture.js]) is outside the file embedded here.  It is
    total, and it reads its options, the rectangle object among them,
    while the call runs; the call is recorded with the rectangle it saw.
    What it writes into the target is not modelled. *)
Definition reprojectTexture (source : option TexRef) (target : TexRef)
    (options : ReprojectOptions) : M unit :=
  fun wd =>
    match ro_rect options with
    | None =>
        Ok tt wd [EvReproject
          (mkReprojectCall source target (ro_numSamples options)
             (ro_distribution options) (ro_specularPower options)
             None (ro_seamPixels options))]
    | Some r =>
        match vecs wd !! r with
        | Some v =>
            Ok tt wd [EvReproject
              (mkReprojectCall source target (ro_numSamples options)
                 (ro_distribution options) (ro_specularPower options)
                 (Some v) (ro_seamPixels options))]
        | None => Throw "TypeError" wd []
        end
    end.

(** [for (let i = lo; i < hi; ++i) body(i)], for a body that leaves [i]
    and the bound alone. *)
Fixpoint forLoop (n : nat) (i : Z) (body : Z -> M unit) : M unit :=
  match n with
  | O => mret tt
  | S n' => body i;; forLoop n' (i + 1)%Z body
  end.

Definition forRange (lo hi : Z) (body : Z -> M unit) : M unit :=
  forLoop (Z.to_nat (hi - lo)) lo body.

Definition Math_max (a b : Q) : Q := Qmax a b.
Definition Math_floor (a : Q) : Q := inject_Z (Qfloor a).

(** ** The source, function by function *)

Definition fixCubemapSeams : JsVal := JsBool true.

Definition supportsFloat16 (device : Device) : JsVal :=
  js_and (extTextureHalfFloat device) (textureHalfFloatRenderable device).

Definition supportsFloat32 (device : Device) : JsVal :=
  js_and (extTextureFloat device) (textureFloatRenderable device).

(** lighting source should be stored HDR *)
Definition lightingSourcePixelFormat (device : Device) : PixelFormat :=
  if truthy (supportsFloat16 device) then PIXELFORMAT_RGBA16F
  else if truthy (supportsFloat32 device) then PIXELFORMAT_RGBA32F
  else PIXELFORMAT_R8_G8_B8_A8.

(** runtime lighting can be RGBM *)
Definition lightingPixelFormat (device : Device) : PixelFormat :=
  PIXELFORMAT_R8_G8_B8_A8.

Definition createCubemap (device : Device) (size : Q) (format : PixelFormat)
    (mipmaps : JsVal) : M TexRef :=
  newTexture {|
    tex_device := device;
    tex_name := NameLighting size;
    tex_cubemap := JsBool true;
    tex_width := size;
    tex_height := size;
    tex_format := format;
    tex_type := if PixelFormat_eqb format PIXELFORMAT_R8_G8_B8_A8
                then TEXTURETYPE_RGBM else TEXTURETYPE_DEFAULT;
    tex_projection := None;
    tex_addressU := ADDRESS_CLAMP_TO_EDGE;
    tex_addressV := ADDRESS_CLAMP_TO_EDGE;
    tex_fixCubemapSeams := fixCubemapSeams;
    tex_mipmaps := js_notnot mipmaps;
    tex_destroyed := false
  |}.

(** generate mipmaps for the given target texture;
    target is either 2d equirect or cubemap with mipmaps = false *)
Definition generateMipmaps (target : TexRef) : M TexRef :=
  t ← readTexture target;
  let device := tex_device t in
  pushGpuMarker device "genMipmaps";;
  result ← newTexture {|
    tex_device := device;
    tex_name := NameAppend (tex_name t) "-mipmaps";
    tex_cubemap := tex_cubemap t;
    tex_width := tex_width t;
    tex_height := tex_height t;
    tex_format := tex_format t;
    tex_type := tex_type t;
    tex_projection := None;
    tex_addressU := tex_addressU t;
    tex_addressV := tex_addressV t;
    tex_fixCubemapSeams := tex_fixCubemapSeams t;
    tex_mipmaps := JsBool true;
    tex_destroyed := false
  |};
  reprojectTexture (Some target) result {|
    ro_numSamples := Some 1;
    ro_distribution := None;
    ro_specularPower := None;
    ro_rect := None;
    ro_seamPixels := None
  |};;
  destroyTexture target;;
  popGpuMarker device;;
  mret result.

Definition generateSkyboxCubemap (source : TexRef) (size : option Q)
    : M TexRef :=
  s ← readTexture source;
  let device := tex_device s in
  pushGpuMarker device "genSkyboxCubemap";;
  result ← createCubemap device
    (num_or size
       (if truthy (tex_cubemap s) then tex_width s else tex_width s / 4))
    PIXELFORMAT_R8_G8_B8_A8 (JsBool false);
  reprojectTexture (Some source) result {|
    ro_numSamples := Some 1024;
    ro_distribution := None;
    ro_specularPower := None;
    ro_rect := None;
    ro_seamPixels := None
  |};;
  popGpuMarker device;;
  mret result.

Definition generateLightingSource (source : TexRef) : M TexRef :=
  s ← readTexture source;
  let device := tex_device s in
  pushGpuMarker device "genLightingSource";;
  result ← createCubemap device 128 (lightingSourcePixelFormat device)
    (JsBool false);
  reprojectTexture (Some source) result {|
    ro_numSamples := Some (if truthy (tex_mipmaps s) then 1 else 1024);
    ro_distribution := None;
    ro_specularPower := None;
    ro_rect := None;
    ro_seamPixels := None
  |};;
  popGpuMarker device;;
  generateMipmaps result.

(** [options?.field] *)
Definition optField {A} (options : option Options)
    (field : Options -> option A) : option A :=
  match options with
  | Some o => field o
  | None => None
  end.

Definition optLegacyAmbient (options : option Options) : JsVal :=
  match options with
  | Some o => opt_legacyAmbient o
  | None => JsUndefined
  end.

(** The texture that both atlas builders create when the caller supplies
    no target: [new Texture(device, { width: 512, height: 512, ... })]. *)
Definition atlasTexture (device : Device) (format : PixelFormat) : Texture :=
  {|
    tex_device := device;
    tex_name := NameUndefined;
    tex_cubemap := JsUndefined;
    tex_width := 512;
    tex_height := 512;
    tex_format := format;
    tex_type := if PixelFormat_eqb format PIXELFORMAT_R8_G8_B8_A8
                then TEXTURETYPE_RGBM else TEXTURETYPE_DEFAULT;
    tex_projection := Some TEXTUREPROJECTION_EQUIRECT;
    tex_addressU := ADDRESS_CLAMP_TO_EDGE;
    tex_addressV := ADDRESS_CLAMP_TO_EDGE;
    tex_fixCubemapSeams := JsUndefined;
    tex_mipmaps := JsBool false;
    tex_destroyed := false
  |}.

(** [options?.target || new Texture(device, {...})] *)
Definition atlasTarget (device : Device) (format : PixelFormat)
    (options : option Options) : M TexRef :=
  match optField options opt_target with
  | Some t => mret t
  | None => newTexture (atlasTexture device format)
  end.

(** [rect.y += rect.w; rect.z = Math.max(1, Math.floor(rect.z * 0.5));
    rect.w = Math.max(1, Math.floor(rect.w * 0.5));] *)
Definition nextLevel (rect : VecRef) : M unit :=
  v ← readVec4 rect;
  writeVec4 rect (Vec4.set_y v (Vec4.y v + Vec4.w v));;
  v ← readVec4 rect;
  writeVec4 rect (Vec4.set_z v (Math_max 1 (Math_floor (Vec4.z v * 0.5))));;
  v ← readVec4 rect;
  writeVec4 rect (Vec4.set_w v (Math_max 1 (Math_floor (Vec4.w v * 0.5)))).

Definition generateAtlas (source : TexRef) (options : option Options)
    : M TexRef :=
  s ← readTexture source;
  let device := tex_device s in
  let format := lightingPixelFormat device in
  pushGpuMarker device "genAtlas";;
  result ← atlasTarget device format options;
  rect ← newVec4 0 0 512 256;
  pushGpuMarker device "reflection";;
  (* generate top-level reflection *)
  reprojectTexture (Some source) result {|
    ro_numSamples := Some 1;
    ro_distribution := None;
    ro_specularPower := None;
    ro_rect := Some rect;
    ro_seamPixels := Some 1
  |};;
  (* generate blurry reflections *)
  forRange 1 7 (fun i =>
    nextLevel rect;;
    reprojectTexture (Some source) result {|
      ro_numSamples := Some (num_or (optField options opt_numSamples) 1024);
      ro_distribution :=
        Some (str_or (optField options opt_distribution) "ggx");
      ro_specularPower :=
        Some (Math_max 1 (inject_Z (js_shr 2048 (i * 2))));
      ro_rect := Some rect;
      ro_seamPixels := Some 1
    |});;
  popGpuMarker device;;
  writeVec4 rect (Vec4.mk 256 256 64 32);;
  pushGpuMarker device "ambient";;
  (* generate ambient *)
  (if truthy (optLegacyAmbient options) then
     reprojectTexture (Some source) result {|
       ro_numSamples := Some (num_or (optField options opt_numSamples) 4096);
       ro_distribution := Some "phong";
       ro_specularPower := Some 2;
       ro_rect := Some rect;
       ro_seamPixels := Some 1
     |}
   else
     reprojectTexture (Some source) result {|
       ro_numSamples := Some (num_or (optField options opt_numSamples) 2048);
       ro_distribution := Some "lambert";
       ro_specularPower := None;
       ro_rect := Some rect;
       ro_seamPixels := Some 1
     |});;
  popGpuMarker device;;
  popGpuMarker device;;
  mret result.

Definition generatePrefilteredAtlas (sources : list TexRef)
    (options : option Options) : M TexRef :=
  s0 ← match sources !! 0%nat with
       | Some r => readTexture r
       | None => throw "TypeError"
       end;
  let device := tex_device s0 in
  let format := lightingPixelFormat device in
  pushGpuMarker device "genPrefilteredAtlas";;
  result ← atlasTarget device format options;
  rect ← newVec4 0 0 512 256;
  pushGpuMarker device "reflection";;
  (* copy blurry reflections *)
  forRange 0 (Z.of_nat (length sources)) (fun i =>
    reprojectTexture (sources !! Z.to_nat i) result {|
      ro_numSamples := Some 1;
      ro_distribution := None;
      ro_specularPower := None;
      ro_rect := Some rect;
      ro_seamPixels := Some 1
    |};;
    nextLevel rect);;
  popGpuMarker device;;
  writeVec4 rect (Vec4.mk 256 256 64 32);;
  pushGpuMarker device "ambient";;
  (* generate ambient *)
  (if truthy (optLegacyAmbient options) then
     reprojectTexture (sources !! 5%nat) result {|
       ro_numSamples := Some 1;
       ro_distribution := None;
       ro_specularPower := None;
       ro_rect := Some rect;
       ro_seamPixels := Some 1
     |}
   else
     reprojectTexture (sources !! 0%nat) result {|
       ro_numSamples := Some (num_or (optField options opt_numSamples) 2048);
       ro_distribution := Some "lambert";
       ro_specularPower := None;
       ro_rect := Some rect;
       ro_seamPixels := Some 1
     |});;
  popGpuMarker device;;
  popGpuMarker device;;
  mret result.

(** ** Reading a run *)

(** The rectangle after [nextLevel], as a function of the one before. *)
Definition advanceRect (r : Vec4.t) : Vec4.t :=
  Vec4.mk (Vec4.x r) (Vec4.y r + Vec4.w r)
    (Math_max 1 (Math_floor (Vec4.z r * 0.5)))
    (Math_max 1 (Math_floor (Vec4.w r * 0.5))).

Fixpoint levelRect (n : nat) (r : Vec4.t) : Vec4.t :=
  match n with
  | O => r
  | S n' => levelRect n' (advanceRect r)
  end.

(** The [reprojectTexture] calls among the events, in order. *)
Fixpoint reprojectCalls (evs : list Event) : list ReprojectCall :=
  match evs with
  | [] => []
  | EvReproject c :: evs' => c :: reprojectCalls evs'
  | _ :: evs' => reprojectCalls evs'
  end.

Fixpoint untilPop (evs : list Event) : list Event :=
  match evs with
  | [] => []
  | EvPopGpuMarker _ :: _ => []
  | e :: evs' => e :: untilPop evs'
  end.

(** The events between the first [pushGpuMarker(device, label)] and the
    [popGpuMarker] that follows it. *)
Fixpoint markerSpan (label : string) (evs : list Event) : list Event :=
  match evs with
  | [] => []
  | EvPushGpuMarker _ l :: evs' =>
      if String.eqb l label then untilPop evs' else markerSpan label evs'
  | _ :: evs' => markerSpan label evs'
  end.

(** A point lies in a rectangle: x and y are its corner, z and w its
    width and height. *)
Definition inRect (r : Vec4.t) (px py : Q) : Prop :=
  Vec4.x r <= px /\ px < Vec4.x r + Vec4.z r /\
  Vec4.y r <= py /\ py < Vec4.y r + Vec4.w r.

Definition disjointb (a b : Vec4.t) : bool :=
  Qle_bool (Vec4.x a + Vec4.z a) (Vec4.x b) ||
  Qle_bool (Vec4.x b + Vec4.z b) (Vec4.x a) ||
  Qle_bool (Vec4.y a + Vec4.w a) (Vec4.y b) ||
  Qle_bool (Vec4.y b + Vec4.w b) (Vec4.y a).

Fixpoint pairwiseDisjointb (l : list Vec4.t) : bool :=
  match l with
  | [] => true
  | r :: l' => forallb (disjointb r) l' && pairwiseDisjointb l'
  end.

Definition withinb (bound : Q) (r : Vec4.t) : bool :=
  Qle_bool 0 (Vec4.x r) && Qle_bool (Vec4.x r + Vec4.z r) bound &&
  Qle_bool 0 (Vec4.y r) && Qle_bool (Vec4.y r + Vec4.w r) bound.

(** The calls of the blurry-reflection loop of [generateAtlas]. *)
Fixpoint blurryCalls (source result : TexRef) (options : option Options)
    (n : nat) (i : Z) (r : Vec4.t) : list ReprojectCall :=
  match n with
  | O => []
  | S n' =>
      {| rc_source := Some source;
         rc_target := result;
         rc_numSamples := Some (num_or (optField options opt_numSamples) 1024);
         rc_distribution :=
           Some (str_or (optField options opt_distribution) "ggx");
         rc_specularPower :=
           Some (Math_max 1 (inject_Z (js_shr 2048 (i * 2))));
         rc_rect := Some (advanceRect r);
         rc_seamPixels := Some 1 |}
      :: blurryCalls source result options n' (i + 1)%Z (advanceRect r)
  end.

(** The calls of the copy loop of [generatePrefilteredAtlas]. *)
Fixpoint copyCalls (sources : list TexRef) (result : TexRef)
    (n : nat) (i : Z) (r : Vec4.t) : list ReprojectCall :=
  match n with
  | O => []
  | S n' =>
      {| rc_source := sources !! Z.to_nat i;
         rc_target := result;
         rc_numSamples := Some 1;
         rc_distribution := None;
         rc_specularPower := None;
         rc_rect := Some r;
         rc_seamPixels := Some 1 |}
      :: copyCalls sources result n' (i + 1)%Z (advanceRect r)
  end.

(** The atlas texture a build works on, the texture store after it is
    chosen, and the events choosing it logs. *)
Definition atlasResult (ts : list Texture) (options : option Options)
    : TexRef :=
  match optField options opt_target with
  | Some t => t
  | None => length ts
  end.

Definition atlasStore (ts : list Texture) (device : Device)
    (options : option Options) : list Texture :=
  match optField options opt_target with
  | Some _ => ts
  | None => ts ++ [atlasTexture device PIXELFORMAT_R8_G8_B8_A8]
  end.

Definition atlasEvents (ts : list Texture) (options : option Options)
    : list Event :=
  match optField options opt_target with
  | Some _ => []
  | None => [EvNewTexture (length ts)]
  end.

(** The single call of the ambient pass of [generateAtlas]. *)
Definition ambientCall (source result : TexRef) (options : option Options)
    : ReprojectCall :=
  if truthy (optLegacyAmbient options) then
    {| rc_source := Some source;
       rc_target := result;
       rc_numSamples := Some (num_or (optField options opt_numSamples) 4096);
       rc_distribution := Some "phong";
       rc_specularPower := Some 2;
       rc_rect := Some (Vec4.mk 256 256 64 32);
       rc_seamPixels := Some 1 |}
  else
    {| rc_source := Some source;
       rc_target := result;
       rc_numSamples := Some (num_or (optField options opt_numSamples) 2048);
       rc_distribution := Some "lambert";
       rc_specularPower := None;
       rc_rect := Some (Vec4.mk 256 256 64 32);
       rc_seamPixels := Some 1 |}.

(** The texture [generateMipmaps] creates for a target that reads [t]. *)
Definition promotedTexture (t : Texture) : Texture :=
  {| tex_device := tex_device t;
     tex_name := NameAppend (tex_name t) "-mipmaps";
     tex_cubemap := tex_cubemap t;
     tex_width := tex_width t;
     tex_height := tex_height t;
     tex_format := tex_format t;
     tex_type := tex_type t;
     tex_projection := None;
     tex_addressU := tex_addressU t;
     tex_addressV := tex_addressV t;
     tex_fixCubemapSeams := tex_fixCubemapSeams t;
     tex_mipmaps := JsBool true;
     tex_destroyed := false |}.

(** A call that passes [numSamples] and nothing else. *)
Definition plainCall (source target : TexRef) (numSamples : Q)
    : ReprojectCall :=
  {| rc_source := Some source;
     rc_target := target;
     rc_numSamples := Some numSamples;
     rc_distribution := None;
     rc_specularPower := None;
     rc_rect := None;
     rc_seamPixels := None |}.

(** The single call of the ambient pass of [generatePrefilteredAtlas]. *)
Definition prefilteredAmbientCall (sources : list TexRef) (result : TexRef)
    (options : option Options) : ReprojectCall :=
  if truthy (optLegacyAmbient options) then
    {| rc_source := sources !! 5%nat;
       rc_target := result;
       rc_numSamples := Some 1;
       rc_distribution := None;
       rc_specularPower := None;
       rc_rect := Some (Vec4.mk 256 256 64 32);
       rc_seamPixels := Some 1 |}
  else
    {| rc_source := sources !! 0%nat;
       rc_target := result;
       rc_numSamples := Some (num_or (optField options opt_numSamples) 2048);
       rc_distribution := Some "lambert";
       rc_specularPower := None;
       rc_rect := Some (Vec4.mk 256 256 64 32);
       rc_seamPixels := Some 1 |}.

(** ** Reading a run: outcomes, markers, lifetimes *)

Definition eventsOf {A} (r : Result A) : list Event :=
  match r with
  | Ok _ _ evs => evs
  | Throw _ _ evs => evs
  end.

(** The rectangles of [n] successive levels, starting at [r]. *)
Fixpoint levelRects (n : nat) (r : Vec4.t) : list Vec4.t :=
  match n with
  | O => []
  | S n' => r :: levelRects n' (advanceRect r)
  end.

(** How many markers are open after [evs], starting from [depth] open
    ones; [None] when a pop finds no marker to close. *)
Fixpoint markerDepth (depth : nat) (evs : list Event) : option nat :=
  match evs with
  | [] => Some depth
  | EvPushGpuMarker _ _ :: evs' => markerDepth (S depth) evs'
  | EvPopGpuMarker _ :: evs' =>
      match depth with
      | O => None
      | S d => markerDepth d evs'
      end
  | _ :: evs' => markerDepth depth evs'
  end.

Definition memRef (r : TexRef) (l : list TexRef) : bool :=
  existsb (Nat.eqb r) l.

Definition optMemRef (r : option TexRef) (l : list TexRef) : bool :=
  match r with
  | Some r' => memRef r' l
  | None => false
  end.

(** Does a run touch a texture after destroying it: a [reprojectTexture]
    call that names it, or a second [destroy()]?  [dead] holds the
    textures destroyed so far. *)
Fixpoint usesDestroyed (dead : list TexRef) (evs : list Event) : bool :=
  match evs with
  | [] => false
  | EvDestroy r :: evs' => memRef r dead || usesDestroyed (r :: dead) evs'
  | EvReproject c :: evs' =>
      optMemRef (rc_source c) dead || memRef (rc_target c) dead
      || usesDestroyed dead evs'
  | _ :: evs' => usesDestroyed dead evs'
  end.

Definition isDestroy (e : Event) : bool :=
  match e with
  | EvDestroy _ => true
  | _ => false
  end.

(** The lighting pipeline: [generateAtlas(generateLightingSource(source),
    options)]. *)
Definition lightingPipeline (source : TexRef) (options : option Options)
    : M TexRef :=
  lighting ← generateLightingSource source;
  generateAtlas lighting options.

(** The events of an atlas build: the opening marker, the events of
    choosing the atlas texture, the reflection pass and the ambient pass. *)
Definition atlasBuildEvents (device : Device) (label : string)
    (chosen : list Event) (reflection : list ReprojectCall)
    (ambient : ReprojectCall) : list Event :=
  EvPushGpuMarker device label
  :: chosen
  ++ EvPushGpuMarker device "reflection"
  :: map EvReproject reflection
  ++ [EvPopGpuMarker device;
      EvPushGpuMarker device "ambient";
      EvReproject ambient;
      EvPopGpuMarker device;
      EvPopGpuMarker device].

(** ** Sample inputs *)

(** A device with renderable full-float textures and no half-float
    extension, and a 128-per-face cubemap on it. *)
Definition sampleDevice : Device :=
  mkDevice JsNull (JsBool false) JsObject (JsBool true).

Definition sampleSource : Texture :=
  {| tex_device := sampleDevice;
     tex_name := NameLiteral "source";
     tex_cubemap := JsBool true;
     tex_width := 128;
     tex_height := 128;
     tex_format := PIXELFORMAT_RGBA32F;
     tex_type := TEXTURETYPE_DEFAULT;
     tex_projection := None;
     tex_addressU := ADDRESS_CLAMP_TO_EDGE;
     tex_addressV := ADDRESS_CLAMP_TO_EDGE;
     tex_fixCubemapSeams := JsBool true;
     tex_mipmaps := JsBool true;
     tex_destroyed := false |}.

Definition sampleWorld : World := mkWorld [sampleSource] [].

(** A 256x256 texture a caller may hand in as [options.target]. *)
Definition smallTarget : Texture :=
  {| tex_device := sampleDevice;
     tex_name := NameLiteral "target";
     tex_cubemap := JsBool false;
     tex_width := 256;
     tex_height := 256;
     tex_format := PIXELFORMAT_R8_G8_B8_A8;
     tex_type := TEXTURETYPE_RGBM;
     tex_projection := Some TEXTUREPROJECTION_EQUIRECT;
     tex_addressU := ADDRESS_CLAMP_TO_EDGE;
     tex_addressV := ADDRESS_CLAMP_TO_EDGE;
     tex_fixCubemapSeams := JsBool false;
     tex_mipmaps := JsBool false;
     tex_destroyed := false |}.

Definition smallTargetWorld : World :=
  mkWorld [sampleSource; smallTarget] [].

Definition smallTargetOptions : option Options :=
  Some (mkOptions (Some 1%nat) None None JsUndefined).

Definition legacyOptions : option Options :=
  Some (mkOptions None None None (JsBool true)).

(** * Proofs *)

(** ** Running the primitives *)

Lemma bind_run {A B} (m : M A) (k : A -> M B) (wd : World) :
  (m ≫= k) wd =
  match m wd with
  | Ok a w1 evs1 => logBefore evs1 (k a w1)
  | Throw msg w1 evs1 => Throw msg w1 evs1
  end.
Proof. reflexivity. Qed.

Lemma lookup_alloc {A} (l : list A) (a : A) : (l ++ [a]) !! length l = Some a.
Proof. induction l; simpl; auto. Qed.

Lemma insert_alloc {A} (l : list A) (a b : A) :
  <[length l := b]> (l ++ [a]) = l ++ [b].
Proof. induction l; simpl; [reflexivity | now f_equal]. Qed.

Lemma readVec4_run ts (vs : list Vec4.t) r :
  readVec4 (length vs) (mkWorld ts (vs ++ [r])) =
  Ok r (mkWorld ts (vs ++ [r])) [].
Proof. unfold readVec4; simpl. now rewrite lookup_alloc. Qed.

Lemma writeVec4_run ts (vs : list Vec4.t) r v :
  writeVec4 (length vs) v (mkWorld ts (vs ++ [r])) =
  Ok tt (mkWorld ts (vs ++ [v])) [].
Proof.
  unfold writeVec4; simpl. now rewrite lookup_alloc, insert_alloc.
Qed.

Lemma reprojectTexture_rect_run ts (vs : list Vec4.t) r source target ns d sp seam :
  reprojectTexture source target
    (mkReprojectOptions ns d sp (Some (length vs)) seam)
    (mkWorld ts (vs ++ [r])) =
  Ok tt (mkWorld ts (vs ++ [r]))
    [EvReproject (mkReprojectCall source target ns d sp (Some r) seam)].
Proof. unfold reprojectTexture; simpl. now rewrite lookup_alloc. Qed.

Lemma readTexture_run ts vs r t :
  ts !! r = Some t -> readTexture r (mkWorld ts vs) = Ok t (mkWorld ts vs) [].
Proof. intros H. unfold readTexture. cbn [textures]. now rewrite H. Qed.

Lemma reprojectTexture_plain_run wd source target ns :
  reprojectTexture (Some source) target
    (mkReprojectOptions (Some ns) None None None None) wd =
  Ok tt wd [EvReproject (plainCall source target ns)].
Proof. reflexivity. Qed.

Lemma newTexture_run ts vs t :
  newTexture t (mkWorld ts vs) =
  Ok (length ts) (mkWorld (ts ++ [t]) vs) [EvNewTexture (length ts)].
Proof. reflexivity. Qed.

Lemma newVec4_run ts vs x y z w :
  newVec4 x y z w (mkWorld ts vs) =
  Ok (length vs) (mkWorld ts (vs ++ [Vec4.mk x y z w])) [].
Proof. reflexivity. Qed.

Lemma pushGpuMarker_run d label wd :
  pushGpuMarker d label wd = Ok tt wd [EvPushGpuMarker d label].
Proof. reflexivity. Qed.

Lemma popGpuMarker_run d wd :
  popGpuMarker d wd = Ok tt wd [EvPopGpuMarker d].
Proof. reflexivity. Qed.

(** One step of a run: the first statement of a sequence runs by [lem]. *)
Tactic Notation "run" open_constr(lem) :=
  rewrite bind_run, lem; cbn [logBefore].

Lemma nextLevel_run ts (vs : list Vec4.t) r :
  nextLevel (length vs) (mkWorld ts (vs ++ [r])) =
  Ok tt (mkWorld ts (vs ++ [advanceRect r])) [].
Proof.
  unfold nextLevel.
  run readVec4_run. run writeVec4_run.
  run readVec4_run. run writeVec4_run.
  run readVec4_run. now rewrite writeVec4_run.
Qed.

Lemma blurry_loop_run ts (vs : list Vec4.t) source result options n :
  forall i r,
    forLoop n i (fun i =>
      nextLevel (length vs);;
      reprojectTexture (Some source) result {|
        ro_numSamples := Some (num_or (optField options opt_numSamples) 1024);
        ro_distribution :=
          Some (str_or (optField options opt_distribution) "ggx");
        ro_specularPower :=
          Some (Math_max 1 (inject_Z (js_shr 2048 (i * 2))));
        ro_rect := Some (length vs);
        ro_seamPixels := Some 1
      |}) (mkWorld ts (vs ++ [r])) =
    Ok tt (mkWorld ts (vs ++ [levelRect n r]))
      (map EvReproject (blurryCalls source result options n i r)).
Proof.
  induction n as [|n IH]; intros i r; [reflexivity|].
  cbn [forLoop blurryCalls levelRect map].
  rewrite bind_run, bind_run, nextLevel_run. cbn [logBefore app].
  rewrite reprojectTexture_rect_run. cbn [logBefore app].
  now rewrite IH.
Qed.

Lemma copy_loop_run ts (vs : list Vec4.t) sources result n :
  forall i r,
    forLoop n i (fun i =>
      reprojectTexture (sources !! Z.to_nat i) result {|
        ro_numSamples := Some 1;
        ro_distribution := None;
        ro_specularPower := None;
        ro_rect := Some (length vs);
        ro_seamPixels := Some 1
      |};;
      nextLevel (length vs)) (mkWorld ts (vs ++ [r])) =
    Ok tt (mkWorld ts (vs ++ [levelRect n r]))
      (map EvReproject (copyCalls sources result n i r)).
Proof.
  induction n as [|n IH]; intros i r; [reflexivity|].
  cbn [forLoop copyCalls levelRect map].
  rewrite bind_run, bind_run, reprojectTexture_rect_run. cbn [logBefore app].
  rewrite nextLevel_run. cbn [logBefore app].
  now rewrite IH.
Qed.

Lemma atlasTarget_run ts vs device options :
  atlasTarget device PIXELFORMAT_R8_G8_B8_A8 options (mkWorld ts vs) =
  Ok (atlasResult ts options) (mkWorld (atlasStore ts device options) vs)
    (atlasEvents ts options).
Proof.
  unfold atlasTarget, atlasResult, atlasStore, atlasEvents.
  now destruct (optField options opt_target).
Qed.

(** [generateAtlas] runs to completion on every live source, and this is
    all it does. *)
Lemma generateAtlas_run ts vs source s options :
  ts !! source = Some s ->
  generateAtlas source options (mkWorld ts vs) =
  Ok (atlasResult ts options)
    (mkWorld (atlasStore ts (tex_device s) options)
       (vs ++ [Vec4.mk 256 256 64 32]))
    (EvPushGpuMarker (tex_device s) "genAtlas"
     :: atlasEvents ts options
     ++ EvPushGpuMarker (tex_device s) "reflection"
     :: map EvReproject
          ({| rc_source := Some source;
              rc_target := atlasResult ts options;
              rc_numSamples := Some 1;
              rc_distribution := None;
              rc_specularPower := None;
              rc_rect := Some (Vec4.mk 0 0 512 256);
              rc_seamPixels := Some 1 |}
           :: blurryCalls source (atlasResult ts options) options 6 1
                (Vec4.mk 0 0 512 256))
     ++ [EvPopGpuMarker (tex_device s);
         EvPushGpuMarker (tex_device s) "ambient";
         EvReproject (ambientCall source (atlasResult ts options) options);
         EvPopGpuMarker (tex_device s);
         EvPopGpuMarker (tex_device s)]).
Proof.
  intros Hs. unfold generateAtlas.
  run (readTexture_run _ _ _ _ Hs).
  run pushGpuMarker_run.
  unfold lightingPixelFormat.
  run atlasTarget_run.
  run newVec4_run.
  run pushGpuMarker_run.
  run reprojectTexture_rect_run.
  rewrite bind_run. unfold forRange. change (Z.to_nat (7 - 1)) with 6%nat.
  rewrite blurry_loop_run. cbn [logBefore].
  run popGpuMarker_run.
  run writeVec4_run.
  run pushGpuMarker_run.
  rewrite bind_run. unfold ambientCall.
  destruct (truthy (optLegacyAmbient options));
    rewrite reprojectTexture_rect_run; reflexivity.
Qed.

(** [generateMipmaps] runs to completion on every live target, and this is
    all it does. *)
Lemma generateMipmaps_run ts vs target t :
  ts !! target = Some t ->
  generateMipmaps target (mkWorld ts vs) =
  Ok (length ts)
    (mkWorld (<[target := destroyed t]> ts ++ [promotedTexture t]) vs)
    [EvPushGpuMarker (tex_device t) "genMipmaps";
     EvNewTexture (length ts);
     EvReproject (plainCall target (length ts) 1);
     EvDestroy target;
     EvPopGpuMarker (tex_device t)].
Proof.
  intros Ht. unfold generateMipmaps.
  run (readTexture_run _ _ _ _ Ht).
  run pushGpuMarker_run.
  run newTexture_run.
  run reprojectTexture_plain_run.
  rewrite bind_run. unfold destroyTexture at 1. cbn [textures vecs].
  rewrite (lookup_app_l_Some _ _ _ _ Ht). cbn [logBefore].
  rewrite insert_app_l by (eapply lookup_lt_Some; eassumption).
  reflexivity.
Qed.

(** [generatePrefilteredAtlas] runs to completion whenever [sources[0]]
    is a live texture, and this is all it does. *)
Lemma generatePrefilteredAtlas_run ts vs sources r0 s0 options :
  sources !! 0%nat = Some r0 ->
  ts !! r0 = Some s0 ->
  generatePrefilteredAtlas sources options (mkWorld ts vs) =
  Ok (atlasResult ts options)
    (mkWorld (atlasStore ts (tex_device s0) options)
       (vs ++ [Vec4.mk 256 256 64 32]))
    (EvPushGpuMarker (tex_device s0) "genPrefilteredAtlas"
     :: atlasEvents ts options
     ++ EvPushGpuMarker (tex_device s0) "reflection"
     :: map EvReproject
          (copyCalls sources (atlasResult ts options) (length sources) 0
             (Vec4.mk 0 0 512 256))
     ++ [EvPopGpuMarker (tex_device s0);
         EvPushGpuMarker (tex_device s0) "ambient";
         EvReproject
           (prefilteredAmbientCall sources (atlasResult ts options) options);
         EvPopGpuMarker (tex_device s0);
         EvPopGpuMarker (tex_device s0)]).
Proof.
  intros Hr Hs. unfold generatePrefilteredAtlas.
  rewrite Hr.
  run (readTexture_run _ _ _ _ Hs).
  run pushGpuMarker_run.
  unfold lightingPixelFormat.
  run atlasTarget_run.
  run newVec4_run.
  run pushGpuMarker_run.
  rewrite bind_run. unfold forRange.
  rewrite Z.sub_0_r, Nat2Z.id, copy_loop_run. cbn [logBefore].
  run popGpuMarker_run.
  run writeVec4_run.
  run pushGpuMarker_run.
  rewrite bind_run. unfold prefilteredAmbientCall. rewrite ?Hr.
  destruct (truthy (optLegacyAmbient options));
    rewrite reprojectTexture_rect_run; reflexivity.
Qed.

(** ** Rectangles as point sets *)

Lemma disjointb_sound a b :
  disjointb a b = true ->
  forall px py, ~ (inRect a px py /\ inRect b px py).
Proof.
  unfold disjointb, inRect.
  rewrite !orb_true_iff, !Qle_bool_iff.
  intros H px py [(Ha1 & Ha2 & Ha3 & Ha4) (Hb1 & Hb2 & Hb3 & Hb4)].
  destruct H as [[[H | H] | H] | H].
  - apply (Qlt_irrefl px). eapply Qlt_le_trans; [exact Ha2|].
    eapply Qle_trans; eassumption.
  - apply (Qlt_irrefl px). eapply Qlt_le_trans; [exact Hb2|].
    eapply Qle_trans; eassumption.
  - apply (Qlt_irrefl py). eapply Qlt_le_trans; [exact Ha4|].
    eapply Qle_trans; eassumption.
  - apply (Qlt_irrefl py). eapply Qlt_le_trans; [exact Hb4|].
    eapply Qle_trans; eassumption.
Qed.

Lemma pairwiseDisjointb_sound (l : list Vec4.t) :
  pairwiseDisjointb l = true ->
  forall (i j : nat) a b, i <> j -> l !! i = Some a -> l !! j = Some b ->
  forall px py, ~ (inRect a px py /\ inRect b px py).
Proof.
  induction l as [|r l IH]; intros Hl i j a b Hij Hi Hj px py.
  - discriminate.
  - cbn [pairwiseDisjointb] in Hl. apply andb_true_iff in Hl as [Hr Hl].
    rewrite forallb_forall in Hr.
    destruct i as [|i], j as [|j]; cbn in Hi, Hj.
    + congruence.
    + inversion Hi; subst. apply disjointb_sound, Hr.
      apply list_elem_of_In. eapply list_elem_of_lookup_2; eassumption.
    + inversion Hj; subst. intros [Ha Hb].
      apply (disjointb_sound b a) with (px := px) (py := py); [|tauto].
      apply Hr, list_elem_of_In. eapply list_elem_of_lookup_2; eassumption.
    + apply (IH Hl i j a b); auto.
Qed.

Lemma withinb_sound bound r :
  withinb bound r = true ->
  forall px py, inRect r px py ->
    (0 <= px /\ px < bound) /\ (0 <= py /\ py < bound).
Proof.
  unfold withinb, inRect. rewrite !andb_true_iff, !Qle_bool_iff.
  intros [[[H1 H2] H3] H4] px py (Hx1 & Hx2 & Hy1 & Hy2).
  repeat split.
  - now apply Qle_trans with (Vec4.x r).
  - apply Qlt_le_trans with (Vec4.x r + Vec4.z r); assumption.
  - now apply Qle_trans with (Vec4.y r).
  - apply Qlt_le_trans with (Vec4.y r + Vec4.w r); assumption.
Qed.

(** ** The atlas layout of [generateAtlas] *)

(** C1. For the starting rectangle (0,0,512,256), the reflection pass of
    [generateAtlas] calls [reprojectTexture] at exactly the rectangles
    (0,0,512,256), (0,256,256,128), (0,384,128,64), (0,448,64,32),
    (0,480,32,16), (0,496,16,8), (0,504,8,4), in that order; each one after
    the first comes from the one before it by x = 0, y + h,
    max(1, floor(w * 0.5)), max(1, floor(h * 0.5)); and the ambient pass
    uses (256,256,64,32) whatever the options are. *)
Theorem generateAtlas_rectangles (wd : World) source s options :
  textures wd !! source = Some s ->
  exists result wd' evs,
    generateAtlas source options wd = Ok result wd' evs /\
    let rects :=
      [Vec4.mk 0 0 512 256; Vec4.mk 0 256 256 128; Vec4.mk 0 384 128 64;
       Vec4.mk 0 448 64 32; Vec4.mk 0 480 32 16; Vec4.mk 0 496 16 8;
       Vec4.mk 0 504 8 4] in
    map rc_rect (reprojectCalls (markerSpan "reflection" evs)) =
      map Some rects /\
    (forall (i : nat) prev next,
        rects !! i = Some prev -> rects !! S i = Some next ->
        Vec4.x next = 0 /\
        Vec4.y next = Vec4.y prev + Vec4.w prev /\
        Vec4.z next = Math_max 1 (Math_floor (Vec4.z prev * 0.5)) /\
        Vec4.w next = Math_max 1 (Math_floor (Vec4.w prev * 0.5))) /\
    map rc_rect (reprojectCalls (markerSpan "ambient" evs)) =
      [Some (Vec4.mk 256 256 64 32)].
Proof.
  destruct wd as [ts vs]; cbn [textures]; intros Hs.
  rewrite (generateAtlas_run _ _ _ _ _ Hs).
  eexists _, _, _; split; [reflexivity|].
  cbn zeta. split; [|split].
  - unfold atlasEvents. destruct (optField options opt_target); reflexivity.
  - intros i prev next Hp Hn.
    do 6 (destruct i as [|i];
          [cbn in Hp, Hn; inversion Hp; inversion Hn; subst;
           repeat split; reflexivity|]).
    destruct i; discriminate.
  - unfold atlasEvents, ambientCall.
    destruct (optField options opt_target),
      (truthy (optLegacyAmbient options)); reflexivity.
Qed.

Lemma generateAtlas_rectangles_witness :
  textures sampleWorld !! 0%nat = Some sampleSource /\
  exists result wd' evs,
    generateAtlas 0%nat None sampleWorld = Ok result wd' evs /\
    map rc_rect (reprojectCalls (markerSpan "ambient" evs)) =
      [Some (Vec4.mk 256 256 64 32)].
Proof.
  split; [reflexivity|].
  destruct (generateAtlas_rectangles sampleWorld 0%nat sampleSource None
              eq_refl) as (result & wd' & evs & Hrun & _ & _ & Hamb).
  exists result, wd', evs. split; assumption.
Defined.

(** C2. For every i from 1 to 6, the specular power that the blurry
    reflection loop of [generateAtlas] passes to [reprojectTexture] is
    max(1, 2048 >> (i * 2)); the six values are 512, 128, 32, 8, 2, 1. *)
Theorem generateAtlas_specular_powers (wd : World) source s options :
  textures wd !! source = Some s ->
  exists result wd' evs,
    generateAtlas source options wd = Ok result wd' evs /\
    map rc_specularPower
      (drop 1 (reprojectCalls (markerSpan "reflection" evs))) =
      map (fun i : Z => Some (Math_max 1 (inject_Z (js_shr 2048 (i * 2)))))
        [1; 2; 3; 4; 5; 6]%Z /\
    map (fun i : Z => Math_max 1 (inject_Z (js_shr 2048 (i * 2))))
      [1; 2; 3; 4; 5; 6]%Z = [512; 128; 32; 8; 2; 1].
Proof.
  destruct wd as [ts vs]; cbn [textures]; intros Hs.
  rewrite (generateAtlas_run _ _ _ _ _ Hs).
  eexists _, _, _; split; [reflexivity|]. split.
  - unfold atlasEvents. destruct (optField options opt_target); reflexivity.
  - reflexivity.
Qed.

Lemma generateAtlas_specular_powers_witness :
  textures sampleWorld !! 0%nat = Some sampleSource /\
  exists result wd' evs,
    generateAtlas 0%nat None sampleWorld = Ok result wd' evs /\
    map rc_specularPower
      (drop 1 (reprojectCalls (markerSpan "reflection" evs))) =
      map Some [512; 128; 32; 8; 2; 1].
Proof.
  split; [reflexivity|].
  destruct (generateAtlas_specular_powers sampleWorld 0%nat sampleSource None
              eq_refl) as (result & wd' & evs & Hrun & Hsp & Hvals).
  exists result, wd', evs. split; [assumption|].
  rewrite Hsp. reflexivity.
Defined.

(** C9. In [generateAtlas] the ambient pass is one call on the rectangle
    (256,256,64,32): with a truthy [options.legacyAmbient] it uses
    distribution phong, specular power 2, and [options.numSamples || 4096]
    samples; otherwise distribution lambert, no specular power, and
    [options.numSamples || 2048] samples. *)
Theorem generateAtlas_ambient (wd : World) source s options :
  textures wd !! source = Some s ->
  exists result wd' evs,
    generateAtlas source options wd = Ok result wd' evs /\
    reprojectCalls (markerSpan "ambient" evs) =
      [if truthy (optLegacyAmbient options) then
         {| rc_source := Some source;
            rc_target := result;
            rc_numSamples :=
              Some (num_or (optField options opt_numSamples) 4096);
            rc_distribution := Some "phong";
            rc_specularPower := Some 2;
            rc_rect := Some (Vec4.mk 256 256 64 32);
            rc_seamPixels := Some 1 |}
       else
         {| rc_source := Some source;
            rc_target := result;
            rc_numSamples :=
              Some (num_or (optField options opt_numSamples) 2048);
            rc_distribution := Some "lambert";
            rc_specularPower := None;
            rc_rect := Some (Vec4.mk 256 256 64 32);
            rc_seamPixels := Some 1 |}].
Proof.
  destruct wd as [ts vs]; cbn [textures]; intros Hs.
  rewrite (generateAtlas_run _ _ _ _ _ Hs).
  eexists _, _, _; split; [reflexivity|].
  unfold atlasEvents, ambientCall.
  destruct (optField options opt_target); reflexivity.
Qed.

Lemma generateAtlas_ambient_witness :
  textures sampleWorld !! 0%nat = Some sampleSource /\
  exists result wd' evs,
    generateAtlas 0%nat legacyOptions sampleWorld = Ok result wd' evs /\
    reprojectCalls (markerSpan "ambient" evs) =
      [{| rc_source := Some 0%nat;
          rc_target := result;
          rc_numSamples := Some 4096;
          rc_distribution := Some "phong";
          rc_specularPower := Some 2;
          rc_rect := Some (Vec4.mk 256 256 64 32);
          rc_seamPixels := Some 1 |}].
Proof.
  split; [reflexivity|].
  exact (generateAtlas_ambient sampleWorld 0%nat sampleSource legacyOptions
           eq_refl).
Defined.

(** C4. The eight rectangles one [generateAtlas] build writes (seven
    reflection levels and the ambient region) share no point pairwise, and
    each lies inside [0,512) x [0,512). *)
Theorem generateAtlas_regions_disjoint (wd : World) source s options :
  textures wd !! source = Some s ->
  exists result wd' evs regions,
    generateAtlas source options wd = Ok result wd' evs /\
    map rc_rect (reprojectCalls evs) = map Some regions /\
    length regions = 8%nat /\
    (forall (i j : nat) a b,
        i <> j -> regions !! i = Some a -> regions !! j = Some b ->
        forall px py, ~ (inRect a px py /\ inRect b px py)) /\
    (forall a, In a regions ->
        forall px py, inRect a px py ->
          (0 <= px /\ px < 512) /\ (0 <= py /\ py < 512)).
Proof.
  destruct wd as [ts vs]; cbn [textures]; intros Hs.
  rewrite (generateAtlas_run _ _ _ _ _ Hs).
  eexists _, _, _,
    [Vec4.mk 0 0 512 256; Vec4.mk 0 256 256 128; Vec4.mk 0 384 128 64;
     Vec4.mk 0 448 64 32; Vec4.mk 0 480 32 16; Vec4.mk 0 496 16 8;
     Vec4.mk 0 504 8 4; Vec4.mk 256 256 64 32].
  split; [reflexivity|]. split; [|split; [|split]].
  - unfold atlasEvents, ambientCall.
    destruct (optField options opt_target),
      (truthy (optLegacyAmbient options)); reflexivity.
  - reflexivity.
  - apply pairwiseDisjointb_sound. vm_compute. reflexivity.
  - intros a Ha. apply withinb_sound.
    revert a Ha. apply forallb_forall. vm_compute. reflexivity.
Qed.

Lemma generateAtlas_regions_disjoint_witness :
  textures sampleWorld !! 0%nat = Some sampleSource /\
  exists result wd' evs,
    generateAtlas 0%nat None sampleWorld = Ok result wd' evs /\
    length (reprojectCalls evs) = 8%nat.
Proof.
  split; [reflexivity|].
  destruct (generateAtlas_regions_disjoint sampleWorld 0%nat sampleSource
              None eq_refl)
    as (result & wd' & evs & regions & Hrun & Hrects & Hlen & _).
  exists result, wd', evs. split; [assumption|].
  rewrite <- (length_map rc_rect), Hrects, length_map. exact Hlen.
Defined.

(** ** The texture [generateAtlas] returns *)

Example generateAtlas_small_target :
  exists wd' evs,
    generateAtlas 0%nat smallTargetOptions smallTargetWorld =
      Ok 1%nat wd' evs /\
    textures wd' !! 1%nat = Some smallTarget.
Proof. vm_compute. eexists _, _. split; reflexivity. Qed.

(** C5, as stated, fails: handed a 256x256 texture as [options.target],
    [generateAtlas] returns that texture, whose width is not 512. *)
Lemma generateAtlas_always_512_counterexample :
  ~ (forall (wd : World) source s options,
        textures wd !! source = Some s ->
        exists result wd' evs t,
          generateAtlas source options wd = Ok result wd' evs /\
          textures wd' !! result = Some t /\
          tex_width t = 512 /\ tex_height t = 512).
Proof.
  intros H.
  destruct (H smallTargetWorld 0%nat sampleSource smallTargetOptions eq_refl)
    as (result & wd' & evs & t & Hrun & Ht & Hw & _).
  vm_compute in Hrun. inversion Hrun; subst.
  vm_compute in Ht. inversion Ht; subst.
  discriminate Hw.
Qed.

(** C5, amended. [generateAtlas] runs to completion on every live source.
    Without [options.target] it returns a texture it has just created, of
    width 512 and height 512; with [options.target] it returns that very
    texture and leaves the texture store as it was, so the result has the
    size the caller's target has. *)
Theorem generateAtlas_result (wd : World) source s options :
  textures wd !! source = Some s ->
  exists result wd' evs,
    generateAtlas source options wd = Ok result wd' evs /\
    match optField options opt_target with
    | None =>
        textures wd !! result = None /\
        exists t, textures wd' !! result = Some t /\
                  tex_width t = 512 /\ tex_height t = 512
    | Some target =>
        result = target /\ textures wd' = textures wd
    end.
Proof.
  destruct wd as [ts vs]; cbn [textures]; intros Hs.
  rewrite (generateAtlas_run _ _ _ _ _ Hs).
  eexists _, _, _; split; [reflexivity|].
  unfold atlasResult, atlasStore. cbn [textures].
  destruct (optField options opt_target) as [target|].
  - split; reflexivity.
  - split.
    + apply lookup_ge_None. lia.
    + eexists. rewrite lookup_alloc. repeat split.
Qed.

Lemma generateAtlas_result_witness :
  textures sampleWorld !! 0%nat = Some sampleSource /\
  exists result wd' evs,
    generateAtlas 0%nat None sampleWorld = Ok result wd' evs /\
    exists t, textures wd' !! result = Some t /\
              tex_width t = 512 /\ tex_height t = 512.
Proof.
  split; [reflexivity|].
  destruct (generateAtlas_result sampleWorld 0%nat sampleSource None eq_refl)
    as (result & wd' & evs & Hrun & _ & Ht).
  exists result, wd', evs. split; assumption.
Defined.

(** ** Format selection *)

Lemma truthy_js_and a b : truthy (js_and a b) = truthy a && truthy b.
Proof. unfold js_and. destruct (truthy a) eqn:E; [reflexivity | exact E]. Qed.

(** C3. Whatever the device, [lightingSourcePixelFormat] is the 16-bit
    float format when half-float textures are supported and renderable,
    else the 32-bit float format when full-float textures are supported
    and renderable, else the 8-bit-per-channel format; and
    [lightingPixelFormat] is the 8-bit-per-channel format. *)
Theorem lightingSourcePixelFormat_selects (device : Device) :
  lightingSourcePixelFormat device =
    (if truthy (extTextureHalfFloat device)
        && truthy (textureHalfFloatRenderable device)
     then PIXELFORMAT_RGBA16F
     else if truthy (extTextureFloat device)
             && truthy (textureFloatRenderable device)
     then PIXELFORMAT_RGBA32F
     else PIXELFORMAT_R8_G8_B8_A8) /\
  lightingPixelFormat device = PIXELFORMAT_R8_G8_B8_A8.
Proof.
  split; [|reflexivity].
  unfold lightingSourcePixelFormat, supportsFloat16, supportsFloat32.
  now rewrite !truthy_js_and.
Qed.

(** ** Mipmap promotion *)

(** C6. For every live texture t (non-mipmapped ones among them),
    [generateMipmaps] returns a texture that did not exist before, with
    t's cubemap flag, width, height, format, type, address modes and
    seam-fixing flag, and with mipmaps = true; its name is t's with
    "-mipmaps" appended and no projection is passed on.  In between it
    makes one [reprojectTexture] call from t into the new texture with
    numSamples = 1 and no other option, then destroys t. *)
Theorem generateMipmaps_promotes (wd : World) target t :
  textures wd !! target = Some t ->
  exists result wd' r,
    generateMipmaps target wd =
      Ok result wd'
        [EvPushGpuMarker (tex_device t) "genMipmaps";
         EvNewTexture result;
         EvReproject
           {| rc_source := Some target;
              rc_target := result;
              rc_numSamples := Some 1;
              rc_distribution := None;
              rc_specularPower := None;
              rc_rect := None;
              rc_seamPixels := None |};
         EvDestroy target;
         EvPopGpuMarker (tex_device t)] /\
    textures wd !! result = None /\
    textures wd' !! result = Some r /\
    tex_cubemap r = tex_cubemap t /\
    tex_width r = tex_width t /\
    tex_height r = tex_height t /\
    tex_format r = tex_format t /\
    tex_type r = tex_type t /\
    tex_addressU r = tex_addressU t /\
    tex_addressV r = tex_addressV t /\
    tex_fixCubemapSeams r = tex_fixCubemapSeams t /\
    tex_mipmaps r = JsBool true /\
    tex_destroyed r = false /\
    tex_name r = NameAppend (tex_name t) "-mipmaps" /\
    tex_projection r = None /\
    textures wd' !! target = Some (destroyed t).
Proof.
  destruct wd as [ts vs]; cbn [textures]; intros Ht.
  rewrite (generateMipmaps_run _ _ _ _ Ht).
  eexists (length ts), _, (promotedTexture t).
  split; [reflexivity|]. cbn [textures].
  split; [apply lookup_ge_None; lia|].
  split; [apply list_lookup_middle; now rewrite length_insert|].
  do 12 (split; [reflexivity|]).
  rewrite lookup_app_l by (rewrite length_insert; eapply lookup_lt_Some; eassumption).
  apply list_lookup_insert_eq. eapply lookup_lt_Some; eassumption.
Qed.

Lemma generateMipmaps_promotes_witness :
  textures sampleWorld !! 0%nat = Some sampleSource /\
  exists result wd' evs,
    generateMipmaps 0%nat sampleWorld = Ok result wd' evs /\
    textures wd' !! 0%nat = Some (destroyed sampleSource).
Proof.
  split; [reflexivity|].
  destruct (generateMipmaps_promotes sampleWorld 0%nat sampleSource eq_refl)
    as (result & wd' & r & Hrun & H).
  eexists result, wd', _. split; [exact Hrun|].
  do 14 (destruct H as [_ H]). exact H.
Defined.

(** ** Skybox cubemap *)

Lemma createCubemap_run ts vs device size format mipmaps :
  exists c,
    createCubemap device size format mipmaps (mkWorld ts vs) =
      Ok (length ts) (mkWorld (ts ++ [c]) vs) [EvNewTexture (length ts)] /\
    tex_device c = device /\
    tex_cubemap c = JsBool true /\
    tex_width c = size /\
    tex_height c = size /\
    tex_format c = format /\
    tex_mipmaps c = JsBool (truthy mipmaps) /\
    tex_destroyed c = false.
Proof. eexists. split; [reflexivity|]. repeat split. Qed.

(** C7, as stated, fails: called with the explicit size 0 on a cubemap of
    width 128, [generateSkyboxCubemap] builds faces of size 128, not 0. *)
Lemma generateSkyboxCubemap_explicit_size_counterexample :
  ~ (forall (wd : World) source s (size : Q),
        textures wd !! source = Some s ->
        exists result wd' evs r,
          generateSkyboxCubemap source (Some size) wd = Ok result wd' evs /\
          textures wd' !! result = Some r /\
          tex_width r == size).
Proof.
  intros H.
  destruct (H sampleWorld 0%nat sampleSource 0 eq_refl)
    as (result & wd' & evs & r & Hrun & Hr & Hw).
  vm_compute in Hrun. inversion Hrun; subst.
  vm_compute in Hr. inversion Hr; subst.
  vm_compute in Hw. discriminate Hw.
Qed.

(** C7, amended. [generateSkyboxCubemap] runs to completion on every live
    source and returns a cubemap with square faces.  Called without a
    size, or with size 0, the face size is [source.width] when the source
    is a cubemap and [source.width / 4] otherwise; called with a size
    other than 0, the face size is that size. *)
Theorem generateSkyboxCubemap_size (wd : World) source s size :
  textures wd !! source = Some s ->
  exists result wd' evs r,
    generateSkyboxCubemap source size wd = Ok result wd' evs /\
    textures wd' !! result = Some r /\
    tex_cubemap r = JsBool true /\
    tex_height r = tex_width r /\
    let automatic :=
      if truthy (tex_cubemap s) then tex_width s else tex_width s / 4 in
    tex_width r =
      match size with
      | Some n => if num_truthy n then n else automatic
      | None => automatic
      end.
Proof.
  destruct wd as [ts vs]; cbn [textures]; intros Hs.
  unfold generateSkyboxCubemap.
  run (readTexture_run _ _ _ _ Hs).
  run pushGpuMarker_run.
  rewrite bind_run.
  destruct (createCubemap_run ts vs (tex_device s)
              (num_or size (if truthy (tex_cubemap s) then tex_width s
                            else tex_width s / 4))
              PIXELFORMAT_R8_G8_B8_A8 (JsBool false))
    as (c & Hc & _ & Hcube & Hw & Hh & _).
  rewrite Hc. cbn [logBefore].
  run reprojectTexture_plain_run.
  eexists _, _, _, c. split; [reflexivity|]. cbn [textures].
  split; [apply lookup_alloc|]. split; [exact Hcube|].
  split; [congruence|]. cbn zeta. exact Hw.
Qed.

Lemma generateSkyboxCubemap_size_witness :
  textures sampleWorld !! 0%nat = Some sampleSource /\
  exists result wd' evs r,
    generateSkyboxCubemap 0%nat (Some 64) sampleWorld = Ok result wd' evs /\
    textures wd' !! result = Some r /\
    tex_width r = 64.
Proof.
  split; [reflexivity|].
  destruct (generateSkyboxCubemap_size sampleWorld 0%nat sampleSource
              (Some 64) eq_refl)
    as (result & wd' & evs & r & Hrun & Hr & _ & _ & Hw).
  exists result, wd', evs, r. repeat split; assumption.
Defined.

(** ** Lighting source *)

(** C8. For every live source, [generateLightingSource] creates a cubemap
    with 128x128 faces in the format [lightingSourcePixelFormat] selects,
    reprojects the source into it with numSamples = 1 when
    [source.mipmaps] is truthy and 1024 otherwise, hands it to
    [generateMipmaps] (one more call with numSamples = 1, after which the
    intermediate cubemap is destroyed), and returns a cubemap of the same
    size and format with mipmaps = true. *)
Theorem generateLightingSource_builds (wd : World) source s :
  textures wd !! source = Some s ->
  let device := tex_device s in
  let first := length (textures wd) in
  exists result wd' c r,
    generateLightingSource source wd =
      Ok result wd'
        [EvPushGpuMarker device "genLightingSource";
         EvNewTexture first;
         EvReproject
           {| rc_source := Some source;
              rc_target := first;
              rc_numSamples :=
                Some (if truthy (tex_mipmaps s) then 1 else 1024);
              rc_distribution := None;
              rc_specularPower := None;
              rc_rect := None;
              rc_seamPixels := None |};
         EvPopGpuMarker device;
         EvPushGpuMarker device "genMipmaps";
         EvNewTexture result;
         EvReproject
           {| rc_source := Some first;
              rc_target := result;
              rc_numSamples := Some 1;
              rc_distribution := None;
              rc_specularPower := None;
              rc_rect := None;
              rc_seamPixels := None |};
         EvDestroy first;
         EvPopGpuMarker device] /\
    textures wd' !! first = Some c /\
    tex_cubemap c = JsBool true /\
    tex_width c = 128 /\ tex_height c = 128 /\
    tex_format c = lightingSourcePixelFormat device /\
    tex_mipmaps c = JsBool false /\
    tex_destroyed c = true /\
    textures wd' !! result = Some r /\
    tex_cubemap r = JsBool true /\
    tex_width r = 128 /\ tex_height r = 128 /\
    tex_format r = lightingSourcePixelFormat device /\
    tex_mipmaps r = JsBool true /\
    tex_destroyed r = false.
Proof.
  destruct wd as [ts vs]; cbn [textures]; intros Hs. cbn zeta.
  unfold generateLightingSource.
  run (readTexture_run _ _ _ _ Hs).
  run pushGpuMarker_run.
  rewrite bind_run.
  destruct (createCubemap_run ts vs (tex_device s) 128
              (lightingSourcePixelFormat (tex_device s)) (JsBool false))
    as (c & Hc & Hdev & Hcube & Hw & Hh & Hfmt & Hmip & Hlive).
  rewrite Hc. cbn [logBefore].
  run reprojectTexture_plain_run.
  run popGpuMarker_run.
  rewrite (generateMipmaps_run _ _ _ _ (lookup_alloc ts c)).
  rewrite insert_alloc, Hdev. cbn [logBefore app].
  eexists _, _, (destroyed c), (promotedTexture c).
  split; [reflexivity|]. cbn [textures].
  split; [rewrite <- app_assoc; apply list_lookup_middle; reflexivity|].
  do 6 (split; [assumption || reflexivity|]).
  split; [apply list_lookup_middle; now rewrite !length_app|].
  repeat split; assumption.
Qed.

Lemma generateLightingSource_builds_witness :
  textures sampleWorld !! 0%nat = Some sampleSource /\
  exists result wd' evs r,
    generateLightingSource 0%nat sampleWorld = Ok result wd' evs /\
    textures wd' !! result = Some r /\
    tex_format r = PIXELFORMAT_RGBA32F /\
    tex_mipmaps r = JsBool true.
Proof.
  split; [reflexivity|].
  destruct (generateLightingSource_builds sampleWorld 0%nat sampleSource
              eq_refl)
    as (result & wd' & c & r & Hrun & _ & _ & _ & _ & _ & _ & _
        & Hr & _ & _ & _ & Hfmt & Hmip & _).
  eexists result, wd', _, r. repeat split; eassumption.
Defined.

(** ** The prefiltered atlas *)

(** C10. Given six sources, the reflection pass of
    [generatePrefilteredAtlas] consists of exactly six [reprojectTexture]
    calls, each with numSamples = 1, no distribution and seamPixels = 1:
    [sources[0]] goes to the base rectangle (0,0,512,256) and [sources[i]]
    to the i-th rectangle of the layout; none of them writes the seventh
    rectangle (0,504,8,4). *)
Theorem generatePrefilteredAtlas_reflection (wd : World)
    (a0 a1 a2 a3 a4 a5 : TexRef) s0 options :
  textures wd !! a0 = Some s0 ->
  exists result wd' evs,
    generatePrefilteredAtlas [a0; a1; a2; a3; a4; a5] options wd =
      Ok result wd' evs /\
    let copy (a : TexRef) (r : Vec4.t) :=
      {| rc_source := Some a;
         rc_target := result;
         rc_numSamples := Some 1;
         rc_distribution := None;
         rc_specularPower := None;
         rc_rect := Some r;
         rc_seamPixels := Some 1 |} in
    markerSpan "reflection" evs =
      map EvReproject
        [copy a0 (Vec4.mk 0 0 512 256); copy a1 (Vec4.mk 0 256 256 128);
         copy a2 (Vec4.mk 0 384 128 64); copy a3 (Vec4.mk 0 448 64 32);
         copy a4 (Vec4.mk 0 480 32 16); copy a5 (Vec4.mk 0 496 16 8)] /\
    length (reprojectCalls (markerSpan "reflection" evs)) = 6%nat /\
    Forall (fun c => rc_rect c <> Some (Vec4.mk 0 504 8 4))
      (reprojectCalls (markerSpan "reflection" evs)).
Proof.
  destruct wd as [ts vs]; cbn [textures]; intros Hs.
  rewrite (generatePrefilteredAtlas_run ts vs [a0; a1; a2; a3; a4; a5]
             a0 s0 options eq_refl Hs).
  eexists _, _, _; split; [reflexivity|]. cbn zeta.
  assert (Hspan :
    markerSpan "reflection"
      (EvPushGpuMarker (tex_device s0) "genPrefilteredAtlas"
       :: atlasEvents ts options
       ++ EvPushGpuMarker (tex_device s0) "reflection"
       :: map EvReproject
            (copyCalls [a0; a1; a2; a3; a4; a5] (atlasResult ts options)
               (length [a0; a1; a2; a3; a4; a5]) 0 (Vec4.mk 0 0 512 256))
       ++ [EvPopGpuMarker (tex_device s0);
           EvPushGpuMarker (tex_device s0) "ambient";
           EvReproject
             (prefilteredAmbientCall [a0; a1; a2; a3; a4; a5]
                (atlasResult ts options) options);
           EvPopGpuMarker (tex_device s0);
           EvPopGpuMarker (tex_device s0)]) =
    map EvReproject
      (copyCalls [a0; a1; a2; a3; a4; a5] (atlasResult ts options) 6 0
         (Vec4.mk 0 0 512 256))).
  { unfold atlasEvents. destruct (optField options opt_target); reflexivity. }
  rewrite Hspan. split; [reflexivity|]. split; [reflexivity|].
  cbn. repeat constructor; discriminate.
Qed.

Lemma generatePrefilteredAtlas_reflection_witness :
  textures sampleWorld !! 0%nat = Some sampleSource /\
  exists result wd' evs,
    generatePrefilteredAtlas [0; 0; 0; 0; 0; 0]%nat None sampleWorld =
      Ok result wd' evs /\
    length (reprojectCalls (markerSpan "reflection" evs)) = 6%nat.
Proof.
  split; [reflexivity|].
  destruct (generatePrefilteredAtlas_reflection sampleWorld
              0%nat 0%nat 0%nat 0%nat 0%nat 0%nat sampleSource None eq_refl)
    as (result & wd' & evs & Hrun & _ & Hlen & _).
  exists result, wd', evs. split; assumption.
Defined.

(** * Further properties *)

(** ** Event lists *)

Lemma reprojectCalls_app evs1 evs2 :
  reprojectCalls (evs1 ++ evs2) = reprojectCalls evs1 ++ reprojectCalls evs2.
Proof.
  induction evs1 as [|e evs1 IH]; [reflexivity|].
  destruct e; cbn [app reprojectCalls]; now rewrite ?IH.
Qed.

Lemma reprojectCalls_map cs : reprojectCalls (map EvReproject cs) = cs.
Proof. induction cs as [|c cs IH]; cbn; now rewrite ?IH. Qed.

Lemma untilPop_calls cs d rest :
  untilPop (map EvReproject cs ++ EvPopGpuMarker d :: rest) =
  map EvReproject cs.
Proof. induction cs as [|c cs IH]; cbn; now rewrite ?IH. Qed.

Lemma markerSpan_calls label cs rest :
  markerSpan label (map EvReproject cs ++ rest) = markerSpan label rest.
Proof. induction cs as [|c cs IH]; cbn; now rewrite ?IH. Qed.

Lemma markerDepth_calls depth cs rest :
  markerDepth depth (map EvReproject cs ++ rest) = markerDepth depth rest.
Proof. induction cs as [|c cs IH]; cbn; now rewrite ?IH. Qed.

Lemma existsb_isDestroy_calls cs rest :
  existsb isDestroy (map EvReproject cs ++ rest) = existsb isDestroy rest.
Proof. induction cs as [|c cs IH]; cbn; now rewrite ?IH. Qed.

Section AtlasBuild.

Variables (device : Device) (ts : list Texture) (options : option Options).
Variables (reflection : list ReprojectCall) (ambient : ReprojectCall).

Lemma build_calls label :
  reprojectCalls
    (atlasBuildEvents device label (atlasEvents ts options) reflection
       ambient) =
  reflection ++ [ambient].
Proof.
  unfold atlasBuildEvents, atlasEvents.
  destruct (optField options opt_target); cbn [app reprojectCalls];
    now rewrite reprojectCalls_app, reprojectCalls_map.
Qed.

Lemma build_reflection_span label :
  String.eqb label "reflection" = false ->
  markerSpan "reflection"
    (atlasBuildEvents device label (atlasEvents ts options) reflection
       ambient) =
  map EvReproject reflection.
Proof.
  intros Hl. unfold atlasBuildEvents, atlasEvents.
  destruct (optField options opt_target); cbn [app markerSpan];
    rewrite Hl; cbn [markerSpan String.eqb Ascii.eqb Bool.eqb];
    apply untilPop_calls.
Qed.

Lemma build_ambient_span label :
  String.eqb label "ambient" = false ->
  markerSpan "ambient"
    (atlasBuildEvents device label (atlasEvents ts options) reflection
       ambient) =
  [EvReproject ambient].
Proof.
  intros Hl. unfold atlasBuildEvents, atlasEvents.
  destruct (optField options opt_target); cbn [app markerSpan];
    rewrite Hl; cbn [markerSpan];
    change (String.eqb "reflection" "ambient") with false; cbn iota;
    rewrite markerSpan_calls; reflexivity.
Qed.

Lemma build_markerDepth label :
  markerDepth 0
    (atlasBuildEvents device label (atlasEvents ts options) reflection
       ambient) = Some 0%nat.
Proof.
  unfold atlasBuildEvents, atlasEvents.
  destruct (optField options opt_target); cbn [app markerDepth];
    now rewrite markerDepth_calls.
Qed.

Lemma build_no_destroy label :
  existsb isDestroy
    (atlasBuildEvents device label (atlasEvents ts options) reflection
       ambient) = false.
Proof.
  unfold atlasBuildEvents, atlasEvents.
  destruct (optField options opt_target); cbn [app existsb isDestroy orb];
    now rewrite existsb_isDestroy_calls.
Qed.

End AtlasBuild.

(** ** Walking down the levels *)

Lemma advanceRect_w_pos r : 1 <= Vec4.w (advanceRect r).
Proof. cbn. unfold Math_max. apply Q.le_max_l. Qed.

Lemma advanceRect_z_pos r : 1 <= Vec4.z (advanceRect r).
Proof. cbn. unfold Math_max. apply Q.le_max_l. Qed.

Lemma levelRect_y_mono k :
  forall r, 0 <= Vec4.w r -> Vec4.y r <= Vec4.y (levelRect k r).
Proof.
  induction k as [|k IH]; intros r Hw; cbn [levelRect].
  - apply Qle_refl.
  - eapply Qle_trans; [|apply IH].
    + cbn. lra.
    + pose proof (advanceRect_w_pos r). lra.
Qed.

Lemma levelRects_lookup n :
  forall r (k : nat), (k < n)%nat -> levelRects n r !! k = Some (levelRect k r).
Proof.
  induction n as [|n IH]; intros r k Hk; [lia|].
  destruct k as [|k]; [reflexivity|].
  cbn [levelRects levelRect]. apply IH. lia.
Qed.

Lemma levelRects_length n : forall r, length (levelRects n r) = n.
Proof. induction n as [|n IH]; intros r; cbn; now rewrite ?IH. Qed.

Lemma levelRects_take n :
  forall m r, (n <= m)%nat -> take n (levelRects m r) = levelRects n r.
Proof.
  induction n as [|n IH]; intros m r Hnm; [reflexivity|].
  destruct m as [|m]; [lia|].
  cbn [levelRects take]. f_equal. apply IH. lia.
Qed.

(** Two different levels of one walk share no point: each level starts
    where the one before it ends. *)
Lemma levelRect_disjoint_lt i :
  forall (j : nat) r, 0 <= Vec4.w r -> (i < j)%nat ->
  forall px py,
    ~ (inRect (levelRect i r) px py /\ inRect (levelRect j r) px py).
Proof.
  induction i as [|i IH]; intros j r Hw Hij px py; destruct j as [|j]; try lia.
  - cbn [levelRect]. unfold inRect. intros [(_ & _ & _ & Hi) (_ & _ & Hj & _)].
    assert (H1 : Vec4.y (advanceRect r) <= Vec4.y (levelRect j (advanceRect r))).
    { apply levelRect_y_mono. pose proof (advanceRect_w_pos r). lra. }
    cbn in H1. lra.
  - cbn [levelRect]. apply IH; [|lia].
    pose proof (advanceRect_w_pos r). lra.
Qed.

Lemma levelRect_disjoint (i j : nat) r :
  0 <= Vec4.w r -> i <> j ->
  forall px py,
    ~ (inRect (levelRect i r) px py /\ inRect (levelRect j r) px py).
Proof.
  intros Hw Hij px py.
  destruct (Nat.lt_ge_cases i j) as [Hlt | Hge].
  - now apply levelRect_disjoint_lt.
  - intros [Hi Hj]. apply (levelRect_disjoint_lt j i r Hw) with px py;
      [lia | tauto].
Qed.

Lemma levelRect_left_half k :
  forall r, Vec4.x r == 0 -> Vec4.z r <= 256 ->
  Vec4.x (levelRect k r) == 0 /\ Vec4.z (levelRect k r) <= 256.
Proof.
  induction k as [|k IH]; intros r Hx Hz; cbn [levelRect]; [tauto|].
  apply IH; cbn; [exact Hx|].
  unfold Math_max, Math_floor. apply Q.max_lub; [lra|].
  pose proof (Qfloor_le (Vec4.z r * 0.5)). lra.
Qed.

(** No level of the walk from (0,0,512,256) reaches the ambient
    rectangle. *)
Lemma levelRect_ambient_disjoint (k : nat) px py :
  ~ (inRect (levelRect k (Vec4.mk 0 0 512 256)) px py /\
     inRect (Vec4.mk 256 256 64 32) px py).
Proof.
  destruct k as [|k].
  - unfold inRect; cbn. lra.
  - cbn [levelRect].
    destruct (levelRect_left_half k (advanceRect (Vec4.mk 0 0 512 256)))
      as [Hx Hz]; [reflexivity | vm_compute; discriminate |].
    unfold inRect; cbn [Vec4.x Vec4.y Vec4.z Vec4.w]. lra.
Qed.

Lemma copyCalls_rects sources result n :
  forall i r,
    map rc_rect (copyCalls sources result n i r) = map Some (levelRects n r).
Proof.
  induction n as [|n IH]; intros i r; [reflexivity|].
  cbn [copyCalls levelRects map rc_rect]. now rewrite IH.
Qed.

Lemma copyCalls_length sources result n :
  forall i r, length (copyCalls sources result n i r) = n.
Proof. induction n as [|n IH]; intros i r; cbn; now rewrite ?IH. Qed.

Lemma copyCalls_lookup sources result n :
  forall i r (k : nat), (k < n)%nat ->
    copyCalls sources result n i r !! k =
    Some {| rc_source := sources !! Z.to_nat (i + Z.of_nat k);
            rc_target := result;
            rc_numSamples := Some 1;
            rc_distribution := None;
            rc_specularPower := None;
            rc_rect := Some (levelRect k r);
            rc_seamPixels := Some 1 |}.
Proof.
  induction n as [|n IH]; intros i r k Hk; [lia|].
  destruct k as [|k].
  - cbn. now rewrite Z.add_0_r.
  - cbn [copyCalls levelRect]. cbn [lookup list_lookup].
    rewrite IH by lia. do 3 f_equal. lia.
Qed.

(** ** The prefiltered atlas, for any number of sources *)

Lemma generatePrefilteredAtlas_build ts vs sources r0 s0 options :
  sources !! 0%nat = Some r0 ->
  ts !! r0 = Some s0 ->
  generatePrefilteredAtlas sources options (mkWorld ts vs) =
  Ok (atlasResult ts options)
    (mkWorld (atlasStore ts (tex_device s0) options)
       (vs ++ [Vec4.mk 256 256 64 32]))
    (atlasBuildEvents (tex_device s0) "genPrefilteredAtlas"
       (atlasEvents ts options)
       (copyCalls sources (atlasResult ts options) (length sources) 0
          (Vec4.mk 0 0 512 256))
       (prefilteredAmbientCall sources (atlasResult ts options) options)).
Proof. exact (generatePrefilteredAtlas_run ts vs sources r0 s0 options). Qed.

Lemma generateAtlas_build ts vs source s options :
  ts !! source = Some s ->
  generateAtlas source options (mkWorld ts vs) =
  Ok (atlasResult ts options)
    (mkWorld (atlasStore ts (tex_device s) options)
       (vs ++ [Vec4.mk 256 256 64 32]))
    (atlasBuildEvents (tex_device s) "genAtlas" (atlasEvents ts options)
       ({| rc_source := Some source;
           rc_target := atlasResult ts options;
           rc_numSamples := Some 1;
           rc_distribution := None;
           rc_specularPower := None;
           rc_rect := Some (Vec4.mk 0 0 512 256);
           rc_seamPixels := Some 1 |}
        :: blurryCalls source (atlasResult ts options) options 6 1
             (Vec4.mk 0 0 512 256))
       (ambientCall source (atlasResult ts options) options)).
Proof. exact (generateAtlas_run ts vs source s options). Qed.

(** X1. With an empty [sources] array, [generatePrefilteredAtlas] throws a
    TypeError at [sources[0].device], before it opens a marker, creates a
    texture or allocates the rectangle. *)
Theorem generatePrefilteredAtlas_empty (wd : World) options :
  generatePrefilteredAtlas [] options wd = Throw "TypeError" wd [].
Proof. reflexivity. Qed.

(** X2. Whatever the number of sources, the reflection pass of
    [generatePrefilteredAtlas] consists of one [reprojectTexture] call per
    source and nothing else: the k-th call copies [sources[k]]
    (numSamples 1, no distribution, seamPixels 1) into the rectangle
    reached from (0,0,512,256) by k level steps. *)
Theorem generatePrefilteredAtlas_copies (wd : World) sources r0 s0 options :
  sources !! 0%nat = Some r0 ->
  textures wd !! r0 = Some s0 ->
  exists result wd' evs,
    generatePrefilteredAtlas sources options wd = Ok result wd' evs /\
    let calls := reprojectCalls (markerSpan "reflection" evs) in
    markerSpan "reflection" evs = map EvReproject calls /\
    length calls = length sources /\
    forall (k : nat) a, sources !! k = Some a ->
      calls !! k =
      Some {| rc_source := Some a;
              rc_target := result;
              rc_numSamples := Some 1;
              rc_distribution := None;
              rc_specularPower := None;
              rc_rect := Some (levelRect k (Vec4.mk 0 0 512 256));
              rc_seamPixels := Some 1 |}.
Proof.
  destruct wd as [ts vs]; cbn [textures]; intros Hr Hs.
  rewrite (generatePrefilteredAtlas_build _ _ _ _ _ _ Hr Hs).
  eexists _, _, _; split; [reflexivity|]. cbn zeta.
  rewrite build_reflection_span by reflexivity.
  rewrite reprojectCalls_map.
  split; [reflexivity|]. split; [apply copyCalls_length|].
  intros k a Hk.
  rewrite copyCalls_lookup by (eapply lookup_lt_Some; eassumption).
  now rewrite Z.add_0_l, Nat2Z.id, Hk.
Qed.

Lemma generatePrefilteredAtlas_copies_witness :
  [0; 0; 0]%nat !! 0%nat = Some 0%nat /\
  textures sampleWorld !! 0%nat = Some sampleSource /\
  exists result wd' evs,
    generatePrefilteredAtlas [0; 0; 0]%nat None sampleWorld =
      Ok result wd' evs /\
    length (reprojectCalls (markerSpan "reflection" evs)) = 3%nat.
Proof.
  split; [reflexivity|]. split; [reflexivity|].
  destruct (generatePrefilteredAtlas_copies sampleWorld [0; 0; 0]%nat
              0%nat sampleSource None eq_refl eq_refl)
    as (result & wd' & evs & Hrun & _ & Hlen & _).
  exists result, wd', evs. split; assumption.
Defined.

(** X3. The ambient pass of [generatePrefilteredAtlas] is one call on the
    rectangle (256,256,64,32) with seamPixels 1.  With a truthy
    [options.legacyAmbient] it copies [sources[5]] with numSamples 1 and no
    distribution, and its source is [undefined] when fewer than six
    sources are given; otherwise it convolves [sources[0]] with lambert
    and [options.numSamples || 2048] samples. *)
Theorem generatePrefilteredAtlas_ambient (wd : World) sources r0 s0 options :
  sources !! 0%nat = Some r0 ->
  textures wd !! r0 = Some s0 ->
  exists result wd' evs,
    generatePrefilteredAtlas sources options wd = Ok result wd' evs /\
    reprojectCalls (markerSpan "ambient" evs) =
      [if truthy (optLegacyAmbient options) then
         {| rc_source := sources !! 5%nat;
            rc_target := result;
            rc_numSamples := Some 1;
            rc_distribution := None;
            rc_specularPower := None;
            rc_rect := Some (Vec4.mk 256 256 64 32);
            rc_seamPixels := Some 1 |}
       else
         {| rc_source := Some r0;
            rc_target := result;
            rc_numSamples :=
              Some (num_or (optField options opt_numSamples) 2048);
            rc_distribution := Some "lambert";
            rc_specularPower := None;
            rc_rect := Some (Vec4.mk 256 256 64 32);
            rc_seamPixels := Some 1 |}] /\
    (truthy (optLegacyAmbient options) = true ->
     (length sources <= 5)%nat ->
     map rc_source (reprojectCalls (markerSpan "ambient" evs)) = [None]).
Proof.
  destruct wd as [ts vs]; cbn [textures]; intros Hr Hs.
  rewrite (generatePrefilteredAtlas_build _ _ _ _ _ _ Hr Hs).
  eexists _, _, _; split; [reflexivity|].
  rewrite build_ambient_span by reflexivity.
  unfold prefilteredAmbientCall. rewrite Hr. cbn [reprojectCalls].
  split.
  - destruct (truthy (optLegacyAmbient options)); reflexivity.
  - intros Hlegacy Hlen. rewrite Hlegacy. cbn.
    now rewrite (lookup_ge_None_2 sources 5) by lia.
Qed.

Lemma generatePrefilteredAtlas_ambient_witness :
  [0; 0; 0]%nat !! 0%nat = Some 0%nat /\
  textures sampleWorld !! 0%nat = Some sampleSource /\
  truthy (optLegacyAmbient legacyOptions) = true /\
  (length [0; 0; 0]%nat <= 5)%nat /\
  exists result wd' evs,
    generatePrefilteredAtlas [0; 0; 0]%nat legacyOptions sampleWorld =
      Ok result wd' evs /\
    map rc_source (reprojectCalls (markerSpan "ambient" evs)) = [None].
Proof.
  split; [reflexivity|]. split; [reflexivity|]. split; [reflexivity|].
  split; [cbn; lia|].
  destruct (generatePrefilteredAtlas_ambient sampleWorld [0; 0; 0]%nat
              0%nat sampleSource legacyOptions eq_refl eq_refl)
    as (result & wd' & evs & Hrun & _ & Hnone).
  exists result, wd', evs. split; [assumption|].
  apply Hnone; [reflexivity | cbn; lia].
Defined.

Lemma regions_lookup n (i : nat) amb a :
  (levelRects n (Vec4.mk 0 0 512 256) ++ [amb]) !! i = Some a ->
  ((i < n)%nat /\ a = levelRect i (Vec4.mk 0 0 512 256)) \/
  (i = n /\ a = amb).
Proof.
  intros H. destruct (Nat.lt_ge_cases i n) as [Hlt | Hge].
  - left. split; [exact Hlt|].
    rewrite lookup_app_l in H by now rewrite levelRects_length.
    rewrite levelRects_lookup in H by exact Hlt. congruence.
  - right. rewrite lookup_app_r in H by now rewrite levelRects_length.
    rewrite levelRects_length in H.
    destruct (i - n)%nat as [|d] eqn:Hd; cbn in H; [|discriminate].
    split; [lia | congruence].
Qed.

Lemma prefiltered_rects sources result options n :
  map rc_rect
    (copyCalls sources result n 0 (Vec4.mk 0 0 512 256)
     ++ [prefilteredAmbientCall sources result options]) =
  map Some (levelRects n (Vec4.mk 0 0 512 256) ++ [Vec4.mk 256 256 64 32]).
Proof.
  rewrite !map_app, copyCalls_rects. f_equal.
  unfold prefilteredAmbientCall.
  now destruct (truthy (optLegacyAmbient options)).
Qed.

(** X4. Whatever the number of sources, no two rectangles one
    [generatePrefilteredAtlas] build writes (one per source, then the
    ambient rectangle) share a point. *)
Theorem generatePrefilteredAtlas_regions_disjoint (wd : World)
    sources r0 s0 options :
  sources !! 0%nat = Some r0 ->
  textures wd !! r0 = Some s0 ->
  exists result wd' evs regions,
    generatePrefilteredAtlas sources options wd = Ok result wd' evs /\
    map rc_rect (reprojectCalls evs) = map Some regions /\
    length regions = S (length sources) /\
    forall (i j : nat) a b,
      i <> j -> regions !! i = Some a -> regions !! j = Some b ->
      forall px py, ~ (inRect a px py /\ inRect b px py).
Proof.
  destruct wd as [ts vs]; cbn [textures]; intros Hr Hs.
  rewrite (generatePrefilteredAtlas_build _ _ _ _ _ _ Hr Hs).
  eexists _, _, _, _; split; [reflexivity|].
  rewrite build_calls. split; [apply prefiltered_rects|].
  split; [rewrite length_app, levelRects_length; cbn; lia|].
  assert (Hw : 0 <= Vec4.w (Vec4.mk 0 0 512 256)) by (cbn; lra).
  intros i j a b Hij Hi Hj px py.
  apply regions_lookup in Hi as [[Hi ->] | [Hi ->]];
    apply regions_lookup in Hj as [[Hj ->] | [Hj ->]].
  - now apply levelRect_disjoint.
  - apply levelRect_ambient_disjoint.
  - intros [Ha Hb]. apply (levelRect_ambient_disjoint j px py). tauto.
  - lia.
Qed.

Lemma generatePrefilteredAtlas_regions_disjoint_witness :
  [0; 0; 0]%nat !! 0%nat = Some 0%nat /\
  textures sampleWorld !! 0%nat = Some sampleSource /\
  exists result wd' evs,
    generatePrefilteredAtlas [0; 0; 0]%nat None sampleWorld =
      Ok result wd' evs /\
    length (reprojectCalls evs) = 4%nat.
Proof.
  split; [reflexivity|]. split; [reflexivity|].
  destruct (generatePrefilteredAtlas_regions_disjoint sampleWorld
              [0; 0; 0]%nat 0%nat sampleSource None eq_refl eq_refl)
    as (result & wd' & evs & regions & Hrun & Hrects & Hlen & _).
  exists result, wd', evs. split; [assumption|].
  rewrite <- (length_map rc_rect), Hrects, length_map. exact Hlen.
Defined.

Lemma levelRect_within (k : nat) :
  (k < 10)%nat -> withinb 512 (levelRect k (Vec4.mk 0 0 512 256)) = true.
Proof.
  intros Hk.
  do 10 (destruct k as [|k]; [vm_compute; reflexivity|]). lia.
Qed.

(** X5. With at most ten sources, every rectangle a
    [generatePrefilteredAtlas] build writes lies inside
    [0,512) x [0,512); from the eleventh source on the copies leave the
    atlas: the eleventh goes to (0,512,1,1). *)
Theorem generatePrefilteredAtlas_within_atlas (wd : World)
    sources r0 s0 options :
  sources !! 0%nat = Some r0 ->
  textures wd !! r0 = Some s0 ->
  exists result wd' evs,
    generatePrefilteredAtlas sources options wd = Ok result wd' evs /\
    ((length sources <= 10)%nat ->
     forall (k : nat) c r,
       reprojectCalls evs !! k = Some c -> rc_rect c = Some r ->
       forall px py, inRect r px py ->
         (0 <= px /\ px < 512) /\ (0 <= py /\ py < 512)) /\
    ((10 < length sources)%nat ->
     exists c, reprojectCalls evs !! 10%nat = Some c /\
               rc_rect c = Some (Vec4.mk 0 512 1 1)).
Proof.
  destruct wd as [ts vs]; cbn [textures]; intros Hr Hs.
  rewrite (generatePrefilteredAtlas_build _ _ _ _ _ _ Hr Hs).
  eexists _, _, _; split; [reflexivity|].
  rewrite build_calls. split.
  - intros Hlen k c r Hc Hrect.
    assert (Hk : (map rc_rect
                    (copyCalls sources (atlasResult ts options)
                       (length sources) 0 (Vec4.mk 0 0 512 256)
                     ++ [prefilteredAmbientCall sources
                           (atlasResult ts options) options])) !! k =
                 Some (Some r)).
    { rewrite list_lookup_fmap, Hc. cbn. now rewrite Hrect. }
    rewrite prefiltered_rects, list_lookup_fmap in Hk.
    destruct ((levelRects (length sources) (Vec4.mk 0 0 512 256)
               ++ [Vec4.mk 256 256 64 32]) !! k) as [a|] eqn:Ha;
      [|discriminate].
    cbn in Hk. assert (a = r) by congruence. subst a.
    apply withinb_sound.
    apply regions_lookup in Ha as [[Hlt ->] | [_ ->]].
    + apply levelRect_within. lia.
    + vm_compute. reflexivity.
  - intros Hlen. eexists. split.
    + rewrite lookup_app_l by now rewrite copyCalls_length.
      apply copyCalls_lookup. exact Hlen.
    + reflexivity.
Qed.

Lemma generatePrefilteredAtlas_within_atlas_witness :
  [0; 0; 0]%nat !! 0%nat = Some 0%nat /\
  textures sampleWorld !! 0%nat = Some sampleSource /\
  (length [0; 0; 0]%nat <= 10)%nat /\
  exists result wd' evs,
    generatePrefilteredAtlas [0; 0; 0]%nat None sampleWorld =
      Ok result wd' evs /\
    forall (k : nat) c r,
      reprojectCalls evs !! k = Some c -> rc_rect c = Some r ->
      forall px py, inRect r px py ->
        (0 <= px /\ px < 512) /\ (0 <= py /\ py < 512).
Proof.
  split; [reflexivity|]. split; [reflexivity|]. split; [cbn; lia|].
  destruct (generatePrefilteredAtlas_within_atlas sampleWorld
              [0; 0; 0]%nat 0%nat sampleSource None eq_refl eq_refl)
    as (result & wd' & evs & Hrun & Hin & _).
  exists result, wd', evs. split; [assumption|].
  apply Hin. cbn; lia.
Defined.

(** ** The atlas texture and the texture store *)

Lemma atlasStore_keeps ts device options (r : nat) t :
  ts !! r = Some t -> atlasStore ts device options !! r = Some t.
Proof.
  intros H. unfold atlasStore.
  destruct (optField options opt_target); [exact H|].
  now apply lookup_app_l_Some.
Qed.

Lemma atlasStore_result ts device options :
  match optField options opt_target with
  | None =>
      ts !! atlasResult ts options = None /\
      atlasStore ts device options !! atlasResult ts options =
        Some (atlasTexture device PIXELFORMAT_R8_G8_B8_A8) /\
      length (atlasStore ts device options) = S (length ts)
  | Some target =>
      atlasResult ts options = target /\ atlasStore ts device options = ts
  end.
Proof.
  unfold atlasStore, atlasResult.
  destruct (optField options opt_target); [split; reflexivity|].
  split; [apply lookup_ge_None; lia|].
  split; [apply lookup_alloc|].
  rewrite length_app. cbn. lia.
Qed.

(** X6. [generatePrefilteredAtlas] leaves every texture that existed
    before as it was and destroys nothing.  With [options.target] it
    returns that texture and creates none; without, it returns the one
    texture it creates: 512x512, 8-bit-per-channel format, RGBM type,
    equirect projection, clamp-to-edge addressing, no mipmaps, not a
    cubemap, whatever the device supports. *)
Theorem generatePrefilteredAtlas_result (wd : World) sources r0 s0 options :
  sources !! 0%nat = Some r0 ->
  textures wd !! r0 = Some s0 ->
  exists result wd' evs,
    generatePrefilteredAtlas sources options wd = Ok result wd' evs /\
    (forall (r : TexRef) t,
        textures wd !! r = Some t -> textures wd' !! r = Some t) /\
    existsb isDestroy evs = false /\
    match optField options opt_target with
    | None =>
        textures wd !! result = None /\
        length (textures wd') = S (length (textures wd)) /\
        exists t, textures wd' !! result = Some t /\
          tex_width t = 512 /\ tex_height t = 512 /\
          tex_format t = PIXELFORMAT_R8_G8_B8_A8 /\
          tex_type t = TEXTURETYPE_RGBM /\
          tex_projection t = Some TEXTUREPROJECTION_EQUIRECT /\
          tex_addressU t = ADDRESS_CLAMP_TO_EDGE /\
          tex_addressV t = ADDRESS_CLAMP_TO_EDGE /\
          tex_mipmaps t = JsBool false /\
          truthy (tex_cubemap t) = false /\
          tex_destroyed t = false
    | Some target => result = target /\ textures wd' = textures wd
    end.
Proof.
  destruct wd as [ts vs]; cbn [textures]; intros Hr Hs.
  rewrite (generatePrefilteredAtlas_build _ _ _ _ _ _ Hr Hs).
  eexists _, _, _; split; [reflexivity|]. cbn [textures].
  split; [intros r t; apply atlasStore_keeps|].
  split; [apply build_no_destroy|].
  pose proof (atlasStore_result ts (tex_device s0) options) as H.
  destruct (optField options opt_target); [exact H|].
  destruct H as (Hnew & Hat & Hlen).
  split; [exact Hnew|]. split; [exact Hlen|].
  eexists. split; [exact Hat|]. repeat split.
Qed.

Lemma generatePrefilteredAtlas_result_witness :
  [0; 0; 0]%nat !! 0%nat = Some 0%nat /\
  textures sampleWorld !! 0%nat = Some sampleSource /\
  exists result wd' evs,
    generatePrefilteredAtlas [0; 0; 0]%nat None sampleWorld =
      Ok result wd' evs /\
    textures wd' !! 0%nat = Some sampleSource.
Proof.
  split; [reflexivity|]. split; [reflexivity|].
  destruct (generatePrefilteredAtlas_result sampleWorld [0; 0; 0]%nat
              0%nat sampleSource None eq_refl eq_refl)
    as (result & wd' & evs & Hrun & Hkeep & _).
  exists result, wd', evs. split; [assumption|].
  apply Hkeep. reflexivity.
Defined.

(** X7. [generateAtlas] leaves every texture that existed before as it
    was and destroys nothing; each of its eight [reprojectTexture] calls
    reads the source and writes the returned atlas, with seamPixels 1.
    An atlas it creates itself has the 8-bit-per-channel format, RGBM
    type, equirect projection, clamp-to-edge addressing and no mipmaps,
    whatever the device supports. *)
Theorem generateAtlas_frame (wd : World) source s options :
  textures wd !! source = Some s ->
  exists result wd' evs,
    generateAtlas source options wd = Ok result wd' evs /\
    (forall (r : TexRef) t,
        textures wd !! r = Some t -> textures wd' !! r = Some t) /\
    existsb isDestroy evs = false /\
    length (reprojectCalls evs) = 8%nat /\
    Forall (fun c => rc_source c = Some source /\ rc_target c = result /\
                     rc_seamPixels c = Some 1)
      (reprojectCalls evs) /\
    (optField options opt_target = None ->
     exists t, textures wd' !! result = Some t /\
       tex_format t = PIXELFORMAT_R8_G8_B8_A8 /\
       tex_type t = TEXTURETYPE_RGBM /\
       tex_projection t = Some TEXTUREPROJECTION_EQUIRECT /\
       tex_addressU t = ADDRESS_CLAMP_TO_EDGE /\
       tex_addressV t = ADDRESS_CLAMP_TO_EDGE /\
       tex_mipmaps t = JsBool false /\
       truthy (tex_cubemap t) = false /\
       tex_destroyed t = false).
Proof.
  destruct wd as [ts vs]; cbn [textures]; intros Hs.
  rewrite (generateAtlas_build _ _ _ _ _ Hs).
  eexists _, _, _; split; [reflexivity|]. cbn [textures].
  split; [intros r t; apply atlasStore_keeps|].
  split; [apply build_no_destroy|].
  rewrite build_calls.
  split; [reflexivity|]. split.
  - unfold ambientCall.
    destruct (truthy (optLegacyAmbient options));
      cbn; repeat constructor.
  - intros Hnone.
    pose proof (atlasStore_result ts (tex_device s) options) as H.
    rewrite Hnone in H. destruct H as (_ & Hat & _).
    eexists. split; [exact Hat|]. repeat split.
Qed.

Lemma generateAtlas_frame_witness :
  textures sampleWorld !! 0%nat = Some sampleSource /\
  exists result wd' evs,
    generateAtlas 0%nat None sampleWorld = Ok result wd' evs /\
    textures wd' !! 0%nat = Some sampleSource /\
    existsb isDestroy evs = false.
Proof.
  split; [reflexivity|].
  destruct (generateAtlas_frame sampleWorld 0%nat sampleSource None eq_refl)
    as (result & wd' & evs & Hrun & Hkeep & Hnod & _).
  exists result, wd', evs. split; [assumption|].
  split; [apply Hkeep; reflexivity | assumption].
Defined.

(** ** Parameters of the reflection pass *)

(** X8. In [generateAtlas], [options.numSamples] and
    [options.distribution] reach the six blurry levels only: level 0 is
    always a plain copy (numSamples 1, no distribution, no specular power),
    and each blurry level uses [options.numSamples || 1024] samples and
    the distribution [options.distribution || 'ggx']. *)
Theorem generateAtlas_reflection_parameters (wd : World) source s options :
  textures wd !! source = Some s ->
  exists result wd' evs,
    generateAtlas source options wd = Ok result wd' evs /\
    let blurry (power : Q) (r : Vec4.t) :=
      {| rc_source := Some source;
         rc_target := result;
         rc_numSamples :=
           Some (num_or (optField options opt_numSamples) 1024);
         rc_distribution :=
           Some (str_or (optField options opt_distribution) "ggx");
         rc_specularPower := Some power;
         rc_rect := Some r;
         rc_seamPixels := Some 1 |} in
    reprojectCalls (markerSpan "reflection" evs) =
      [{| rc_source := Some source;
          rc_target := result;
          rc_numSamples := Some 1;
          rc_distribution := None;
          rc_specularPower := None;
          rc_rect := Some (Vec4.mk 0 0 512 256);
          rc_seamPixels := Some 1 |};
       blurry 512 (Vec4.mk 0 256 256 128);
       blurry 128 (Vec4.mk 0 384 128 64);
       blurry 32 (Vec4.mk 0 448 64 32);
       blurry 8 (Vec4.mk 0 480 32 16);
       blurry 2 (Vec4.mk 0 496 16 8);
       blurry 1 (Vec4.mk 0 504 8 4)].
Proof.
  destruct wd as [ts vs]; cbn [textures]; intros Hs.
  rewrite (generateAtlas_build _ _ _ _ _ Hs).
  eexists _, _, _; split; [reflexivity|]. cbn zeta.
  rewrite build_reflection_span by reflexivity.
  rewrite reprojectCalls_map. reflexivity.
Qed.

Lemma generateAtlas_reflection_parameters_witness :
  textures sampleWorld !! 0%nat = Some sampleSource /\
  exists result wd' evs,
    generateAtlas 0%nat None sampleWorld = Ok result wd' evs /\
    map rc_numSamples (reprojectCalls (markerSpan "reflection" evs)) =
      map Some [1; 1024; 1024; 1024; 1024; 1024; 1024].
Proof.
  split; [reflexivity|].
  destruct (generateAtlas_reflection_parameters sampleWorld 0%nat
              sampleSource None eq_refl)
    as (result & wd' & evs & Hrun & Hcalls).
  exists result, wd', evs. split; [assumption|].
  cbn zeta in Hcalls. rewrite Hcalls. reflexivity.
Defined.

(** X9. The two atlas builders agree on the layout: given at most seven
    sources, [generatePrefilteredAtlas] copies them into the first
    rectangles of the reflection sequence of [generateAtlas], in the same
    order, and both put the ambient pass on the same rectangle. *)
Theorem atlas_layouts_agree (wdA wdP : World) source s optionsA
    sources r0 s0 optionsP :
  textures wdA !! source = Some s ->
  sources !! 0%nat = Some r0 ->
  textures wdP !! r0 = Some s0 ->
  (length sources <= 7)%nat ->
  exists resultA wdA' evsA resultP wdP' evsP,
    generateAtlas source optionsA wdA = Ok resultA wdA' evsA /\
    generatePrefilteredAtlas sources optionsP wdP = Ok resultP wdP' evsP /\
    map rc_rect (reprojectCalls (markerSpan "reflection" evsP)) =
      take (length sources)
        (map rc_rect (reprojectCalls (markerSpan "reflection" evsA))) /\
    map rc_rect (reprojectCalls (markerSpan "ambient" evsP)) =
      map rc_rect (reprojectCalls (markerSpan "ambient" evsA)).
Proof.
  destruct wdA as [tsA vsA], wdP as [tsP vsP]; cbn [textures].
  intros Hs Hr Hs0 Hlen.
  rewrite (generateAtlas_build _ _ _ _ _ Hs).
  rewrite (generatePrefilteredAtlas_build _ _ _ _ _ _ Hr Hs0).
  eexists _, _, _, _, _, _. split; [reflexivity|]. split; [reflexivity|].
  rewrite !build_reflection_span, !build_ambient_span by reflexivity.
  rewrite !reprojectCalls_map. split.
  - rewrite copyCalls_rects.
    change (map rc_rect _)
      with (map Some (levelRects 7 (Vec4.mk 0 0 512 256))).
    rewrite firstn_map.
    now rewrite (levelRects_take _ 7) by exact Hlen.
  - unfold prefilteredAmbientCall, ambientCall.
    destruct (truthy (optLegacyAmbient optionsP)),
      (truthy (optLegacyAmbient optionsA)); reflexivity.
Qed.

Lemma atlas_layouts_agree_witness :
  textures sampleWorld !! 0%nat = Some sampleSource /\
  [0; 0; 0]%nat !! 0%nat = Some 0%nat /\
  (length [0; 0; 0]%nat <= 7)%nat /\
  exists resultP wdP' evsP,
    generatePrefilteredAtlas [0; 0; 0]%nat None sampleWorld =
      Ok resultP wdP' evsP /\
    map rc_rect (reprojectCalls (markerSpan "ambient" evsP)) =
      [Some (Vec4.mk 256 256 64 32)].
Proof.
  split; [reflexivity|]. split; [reflexivity|]. split; [cbn; lia|].
  destruct (atlas_layouts_agree sampleWorld sampleWorld 0%nat sampleSource
              None [0; 0; 0]%nat 0%nat sampleSource None
              eq_refl eq_refl eq_refl ltac:(cbn; lia))
    as (resultA & wdA' & evsA & resultP & wdP' & evsP
        & HrunA & HrunP & _ & Hamb).
  exists resultP, wdP', evsP. split; [assumption|].
  rewrite Hamb. vm_compute in HrunA. inversion HrunA. reflexivity.
Defined.

(** ** Cubemaps *)

Lemma PixelFormat_eqb_eq a b : PixelFormat_eqb a b = true <-> a = b.
Proof.
  destruct a, b; cbn; try (split; [discriminate | congruence]);
    try (split; reflexivity).
  rewrite Nat.eqb_eq. split; congruence.
Qed.

(** X10. [createCubemap] always succeeds and adds one texture to the
    store, a cubemap with square faces of the given size (which it does not
    validate), clamp-to-edge addressing and seam fixing on; its type is
    RGBM exactly when the format is the 8-bit-per-channel one and the
    default type otherwise, and its mipmaps flag is the boolean [!!mipmaps]
    of whatever value was passed. *)
Theorem createCubemap_attributes (wd : World) device size format mipmaps :
  exists t,
    createCubemap device size format mipmaps wd =
      Ok (length (textures wd))
        (mkWorld (textures wd ++ [t]) (vecs wd))
        [EvNewTexture (length (textures wd))] /\
    tex_device t = device /\
    tex_cubemap t = JsBool true /\
    tex_width t = size /\ tex_height t = size /\
    tex_format t = format /\
    (tex_type t = TEXTURETYPE_RGBM <-> format = PIXELFORMAT_R8_G8_B8_A8) /\
    (tex_type t = TEXTURETYPE_DEFAULT <-> format <> PIXELFORMAT_R8_G8_B8_A8) /\
    tex_addressU t = ADDRESS_CLAMP_TO_EDGE /\
    tex_addressV t = ADDRESS_CLAMP_TO_EDGE /\
    tex_fixCubemapSeams t = JsBool true /\
    tex_mipmaps t = JsBool (truthy mipmaps) /\
    tex_destroyed t = false.
Proof.
  eexists. split; [reflexivity|]. cbn.
  do 5 (split; [reflexivity|]).
  pose proof (PixelFormat_eqb_eq format PIXELFORMAT_R8_G8_B8_A8) as Heq.
  destruct (PixelFormat_eqb format PIXELFORMAT_R8_G8_B8_A8).
  - assert (format = PIXELFORMAT_R8_G8_B8_A8) by now apply Heq.
    repeat split; try reflexivity; try discriminate; congruence.
  - assert (format <> PIXELFORMAT_R8_G8_B8_A8)
      by (intros E; apply Heq in E; discriminate).
    repeat split; try reflexivity; try discriminate; congruence.
Qed.

(** X11. [generateSkyboxCubemap] makes exactly one [reprojectTexture]
    call, from the source into the cubemap it has just created, with
    numSamples 1024 and no distribution, rectangle or seam option, inside
    one marker.  The cubemap has the 8-bit-per-channel format, RGBM type,
    clamp-to-edge addressing, seam fixing on and no mipmaps; every texture
    that existed before, the source included, is left as it was. *)
Theorem generateSkyboxCubemap_effect (wd : World) source s size :
  textures wd !! source = Some s ->
  exists result wd' r,
    generateSkyboxCubemap source size wd =
      Ok result wd'
        [EvPushGpuMarker (tex_device s) "genSkyboxCubemap";
         EvNewTexture result;
         EvReproject
           {| rc_source := Some source;
              rc_target := result;
              rc_numSamples := Some 1024;
              rc_distribution := None;
              rc_specularPower := None;
              rc_rect := None;
              rc_seamPixels := None |};
         EvPopGpuMarker (tex_device s)] /\
    textures wd !! result = None /\
    (forall (r' : TexRef) t,
        textures wd !! r' = Some t -> textures wd' !! r' = Some t) /\
    length (textures wd') = S (length (textures wd)) /\
    textures wd' !! result = Some r /\
    tex_device r = tex_device s /\
    tex_format r = PIXELFORMAT_R8_G8_B8_A8 /\
    tex_type r = TEXTURETYPE_RGBM /\
    tex_addressU r = ADDRESS_CLAMP_TO_EDGE /\
    tex_addressV r = ADDRESS_CLAMP_TO_EDGE /\
    tex_fixCubemapSeams r = JsBool true /\
    tex_mipmaps r = JsBool false /\
    tex_destroyed r = false.
Proof.
  destruct wd as [ts vs]; cbn [textures]; intros Hs.
  unfold generateSkyboxCubemap.
  run (readTexture_run _ _ _ _ Hs).
  run pushGpuMarker_run.
  unfold createCubemap. run newTexture_run.
  run reprojectTexture_plain_run.
  eexists _, _, _. split; [reflexivity|]. cbn [textures].
  split; [apply lookup_ge_None; lia|].
  split; [intros r' t; apply lookup_app_l_Some|].
  split; [rewrite length_app; cbn; lia|].
  split; [apply lookup_alloc|]. repeat split.
Qed.

Lemma generateSkyboxCubemap_effect_witness :
  textures sampleWorld !! 0%nat = Some sampleSource /\
  exists result wd' evs,
    generateSkyboxCubemap 0%nat None sampleWorld = Ok result wd' evs /\
    textures wd' !! 0%nat = Some sampleSource /\
    length (reprojectCalls evs) = 1%nat.
Proof.
  split; [reflexivity|].
  destruct (generateSkyboxCubemap_effect sampleWorld 0%nat sampleSource None
              eq_refl)
    as (result & wd' & r & Hrun & _ & Hkeep & _).
  eexists result, wd', _. split; [exact Hrun|].
  split; [apply Hkeep; reflexivity | reflexivity].
Defined.

(** [generateLightingSource] runs to completion on every live source, and
    this is all it does. *)
Lemma generateLightingSource_run ts vs source s :
  ts !! source = Some s ->
  exists c,
    generateLightingSource source (mkWorld ts vs) =
      Ok (S (length ts))
        (mkWorld (ts ++ [destroyed c; promotedTexture c]) vs)
        [EvPushGpuMarker (tex_device s) "genLightingSource";
         EvNewTexture (length ts);
         EvReproject
           (plainCall source (length ts)
              (if truthy (tex_mipmaps s) then 1 else 1024));
         EvPopGpuMarker (tex_device s);
         EvPushGpuMarker (tex_device s) "genMipmaps";
         EvNewTexture (S (length ts));
         EvReproject (plainCall (length ts) (S (length ts)) 1);
         EvDestroy (length ts);
         EvPopGpuMarker (tex_device s)] /\
    tex_device c = tex_device s /\
    tex_format c = lightingSourcePixelFormat (tex_device s) /\
    tex_type c =
      (if PixelFormat_eqb (lightingSourcePixelFormat (tex_device s))
            PIXELFORMAT_R8_G8_B8_A8
       then TEXTURETYPE_RGBM else TEXTURETYPE_DEFAULT) /\
    tex_addressU c = ADDRESS_CLAMP_TO_EDGE /\
    tex_addressV c = ADDRESS_CLAMP_TO_EDGE /\
    tex_fixCubemapSeams c = JsBool true /\
    tex_cubemap c = JsBool true /\
    tex_width c = 128 /\ tex_height c = 128.
Proof.
  intros Hs. eexists. split.
  - unfold generateLightingSource.
    run (readTexture_run _ _ _ _ Hs).
    run pushGpuMarker_run.
    unfold createCubemap. run newTexture_run.
    run reprojectTexture_plain_run.
    run popGpuMarker_run.
    rewrite (generateMipmaps_run _ _ _ _ (lookup_alloc ts _)).
    rewrite insert_alloc, length_app, <- app_assoc. cbn [logBefore app length].
    rewrite Nat.add_1_r. reflexivity.
  - repeat split.
Qed.

(** X12. [generateLightingSource] leaves every texture that existed
    before, the source included, as it was: it adds two textures and
    destroys only the first of them, its own intermediate cubemap.  The
    cubemap it returns is alive, keeps clamp-to-edge addressing and seam
    fixing, and has the default type when the device can render to
    half-float or full-float textures and the RGBM type otherwise. *)
Theorem generateLightingSource_frame (wd : World) source s :
  textures wd !! source = Some s ->
  let device := tex_device s in
  exists result wd' evs r,
    generateLightingSource source wd = Ok result wd' evs /\
    (forall (r' : TexRef) t,
        textures wd !! r' = Some t -> textures wd' !! r' = Some t) /\
    length (textures wd') = S (S (length (textures wd))) /\
    filter (fun e => isDestroy e = true) evs =
      [EvDestroy (length (textures wd))] /\
    usesDestroyed [] evs = false /\
    textures wd' !! result = Some r /\
    tex_destroyed r = false /\
    tex_addressU r = ADDRESS_CLAMP_TO_EDGE /\
    tex_addressV r = ADDRESS_CLAMP_TO_EDGE /\
    tex_fixCubemapSeams r = JsBool true /\
    tex_type r =
      (if (truthy (extTextureHalfFloat device)
           && truthy (textureHalfFloatRenderable device))
          || (truthy (extTextureFloat device)
              && truthy (textureFloatRenderable device))
       then TEXTURETYPE_DEFAULT else TEXTURETYPE_RGBM).
Proof.
  destruct wd as [ts vs]; cbn [textures]; intros Hs. cbn zeta.
  destruct (generateLightingSource_run ts vs source s Hs)
    as (c & Hrun & Hdev & Hfmt & Htype & HaU & HaV & Hseam & _).
  rewrite Hrun. eexists _, _, _, (promotedTexture c).
  split; [reflexivity|]. cbn [textures].
  split; [intros r' t; apply lookup_app_l_Some|].
  split; [rewrite length_app; cbn; lia|].
  split; [reflexivity|].
  split; [reflexivity|].
  split.
  { change (ts ++ [destroyed c; promotedTexture c])
      with (ts ++ [destroyed c] ++ [promotedTexture c]).
    rewrite app_assoc. apply list_lookup_middle.
    rewrite length_app. cbn. lia. }
  cbn [promotedTexture tex_destroyed tex_addressU tex_addressV
       tex_fixCubemapSeams tex_type].
  do 4 (split; [assumption || reflexivity|]).
  rewrite Htype. unfold lightingSourcePixelFormat, supportsFloat16,
    supportsFloat32. rewrite !truthy_js_and.
  destruct (truthy (extTextureHalfFloat (tex_device s))
            && truthy (textureHalfFloatRenderable (tex_device s)));
    [reflexivity|].
  destruct (truthy (extTextureFloat (tex_device s))
            && truthy (textureFloatRenderable (tex_device s)));
    reflexivity.
Qed.

Lemma generateLightingSource_frame_witness :
  textures sampleWorld !! 0%nat = Some sampleSource /\
  exists result wd' evs,
    generateLightingSource 0%nat sampleWorld = Ok result wd' evs /\
    textures wd' !! 0%nat = Some sampleSource /\
    usesDestroyed [] evs = false.
Proof.
  split; [reflexivity|].
  destruct (generateLightingSource_frame sampleWorld 0%nat sampleSource
              eq_refl)
    as (result & wd' & evs & r & Hrun & Hkeep & _ & _ & Hsafe & _).
  exists result, wd', evs. split; [assumption|].
  split; [apply Hkeep; reflexivity | assumption].
Defined.

(** ** Mipmap promotion and the store *)



(** ** Markers *)

(** X14. Every function closes each GPU marker it opens and never closes
    one it did not open: on a live source the events of
    [generateSkyboxCubemap], [generateMipmaps], [generateLightingSource],
    [generateAtlas] and [generatePrefilteredAtlas] leave no marker open. *)
Theorem markers_balanced (wd : World) source s :
  textures wd !! source = Some s ->
  (forall size,
      markerDepth 0 (eventsOf (generateSkyboxCubemap source size wd)) =
        Some 0%nat) /\
  markerDepth 0 (eventsOf (generateMipmaps source wd)) = Some 0%nat /\
  markerDepth 0 (eventsOf (generateLightingSource source wd)) = Some 0%nat /\
  (forall options,
      markerDepth 0 (eventsOf (generateAtlas source options wd)) =
        Some 0%nat) /\
  (forall sources options,
      sources !! 0%nat = Some source ->
      markerDepth 0
        (eventsOf (generatePrefilteredAtlas sources options wd)) =
        Some 0%nat).
Proof.
  destruct wd as [ts vs]; cbn [textures]; intros Hs.
  split; [|split; [|split; [|split]]].
  - intros size. unfold generateSkyboxCubemap.
    run (readTexture_run _ _ _ _ Hs).
    run pushGpuMarker_run.
    unfold createCubemap. run newTexture_run.
    run reprojectTexture_plain_run.
    reflexivity.
  - now rewrite (generateMipmaps_run _ _ _ _ Hs).
  - destruct (generateLightingSource_run ts vs source s Hs) as (c & Hrun & _).
    now rewrite Hrun.
  - intros options. rewrite (generateAtlas_build _ _ _ _ _ Hs).
    apply build_markerDepth.
  - intros sources options Hr.
    rewrite (generatePrefilteredAtlas_build _ _ _ _ _ _ Hr Hs).
    apply build_markerDepth.
Qed.

Lemma markers_balanced_witness :
  textures sampleWorld !! 0%nat = Some sampleSource /\
  markerDepth 0 (eventsOf (generateAtlas 0%nat None sampleWorld)) =
    Some 0%nat.
Proof.
  split; [reflexivity|].
  destruct (markers_balanced sampleWorld 0%nat sampleSource eq_refl)
    as (_ & _ & _ & Hatlas & _).
  apply Hatlas.
Defined.

(** ** One level step *)

Lemma readVec4_at ts (vs : list Vec4.t) (rect : VecRef) r :
  vs !! rect = Some r ->
  readVec4 rect (mkWorld ts vs) = Ok r (mkWorld ts vs) [].
Proof. intros Hr. unfold readVec4. cbn [vecs]. now rewrite Hr. Qed.

Lemma writeVec4_at ts (vs : list Vec4.t) (rect : VecRef) r v :
  vs !! rect = Some r ->
  writeVec4 rect v (mkWorld ts vs) = Ok tt (mkWorld ts (<[rect := v]> vs)) [].
Proof. intros Hr. unfold writeVec4. cbn [vecs textures]. now rewrite Hr. Qed.

Lemma lookup_written (vs : list Vec4.t) (rect : VecRef) r v :
  vs !! rect = Some r -> <[rect := v]> vs !! rect = Some v.
Proof.
  intros Hr. apply list_lookup_insert_eq. eapply lookup_lt_Some; eassumption.
Qed.

Lemma nextLevel_at ts (vs : list Vec4.t) (rect : VecRef) r :
  vs !! rect = Some r ->
  nextLevel rect (mkWorld ts vs) =
  Ok tt (mkWorld ts (<[rect := advanceRect r]> vs)) [].
Proof.
  intros Hr. unfold nextLevel.
  run (readVec4_at _ _ _ _ Hr). run (writeVec4_at _ _ _ _ _ Hr).
  pose proof (lookup_written vs rect r
                (Vec4.set_y r (Vec4.y r + Vec4.w r)) Hr) as H1.
  run (readVec4_at _ _ _ _ H1). run (writeVec4_at _ _ _ _ _ H1).
  rewrite list_insert_insert_eq.
  match goal with
  | |- context [<[rect := ?v]> vs] =>
      pose proof (lookup_written vs rect r v Hr) as H2
  end.
  run (readVec4_at _ _ _ _ H2).
  rewrite (writeVec4_at _ _ _ _ _ H2), list_insert_insert_eq.
  reflexivity.
Qed.

Lemma Math_max_floor_integer q :
  exists m : Z, Math_max 1 (Math_floor q) = inject_Z m.
Proof.
  unfold Math_max, Math_floor, Qmax, GenericMinMax.gmax.
  destruct (1 ?= inject_Z (Qfloor q)); [exists 1%Z | eexists | exists 1%Z];
    reflexivity.
Qed.

(** X15. One level step ([rect.y += rect.w], then both sizes halved,
    floored and clamped) works on any rectangle, whatever numbers it
    holds: x is kept, y grows by the old height, the new width and height
    are integers, at least 1 and at most max(1, half the old value).  No
    other rectangle and no texture changes. *)
Theorem nextLevel_clamps (wd : World) (rect : VecRef) r :
  vecs wd !! rect = Some r ->
  exists wd' r',
    nextLevel rect wd = Ok tt wd' [] /\
    textures wd' = textures wd /\
    length (vecs wd') = length (vecs wd) /\
    (forall q : VecRef, q <> rect -> vecs wd' !! q = vecs wd !! q) /\
    vecs wd' !! rect = Some r' /\
    Vec4.x r' = Vec4.x r /\
    Vec4.y r' = Vec4.y r + Vec4.w r /\
    (1 <= Vec4.z r' /\ Vec4.z r' <= Qmax 1 (Vec4.z r * 0.5)) /\
    (1 <= Vec4.w r' /\ Vec4.w r' <= Qmax 1 (Vec4.w r * 0.5)) /\
    (exists m n : Z, Vec4.z r' = inject_Z m /\ Vec4.w r' = inject_Z n).
Proof.
  destruct wd as [ts vs]; cbn [textures vecs]; intros Hr.
  rewrite (nextLevel_at _ _ _ _ Hr).
  exists (mkWorld ts (<[rect := advanceRect r]> vs)), (advanceRect r).
  split; [reflexivity|]. cbn [textures vecs].
  split; [reflexivity|]. split; [apply length_insert|].
  split; [intros q Hq; apply list_lookup_insert_ne; congruence|].
  split; [apply list_lookup_insert_eq; eapply lookup_lt_Some; eassumption|].
  split; [reflexivity|]. split; [reflexivity|].
  split; [|split].
  - split; [apply advanceRect_z_pos|]. cbn. unfold Math_max, Math_floor.
    apply Q.max_le_compat_l, Qfloor_le.
  - split; [apply advanceRect_w_pos|]. cbn. unfold Math_max, Math_floor.
    apply Q.max_le_compat_l, Qfloor_le.
  - destruct (Math_max_floor_integer (Vec4.z r * 0.5)) as [m Hm].
    destruct (Math_max_floor_integer (Vec4.w r * 0.5)) as [n Hn].
    exists m, n. split; assumption.
Qed.

Lemma nextLevel_clamps_witness :
  [Vec4.mk 0 0 1 (-3)] !! 0%nat = Some (Vec4.mk 0 0 1 (-3)) /\
  exists wd' r',
    nextLevel 0%nat (mkWorld [] [Vec4.mk 0 0 1 (-3)]) = Ok tt wd' [] /\
    vecs wd' !! 0%nat = Some r' /\
    1 <= Vec4.z r' /\ 1 <= Vec4.w r'.
Proof.
  split; [reflexivity|].
  destruct (nextLevel_clamps (mkWorld [] [Vec4.mk 0 0 1 (-3)]) 0%nat
              (Vec4.mk 0 0 1 (-3)) eq_refl)
    as (wd' & r' & Hrun & _ & _ & _ & Hr' & _ & _ & [Hz _] & [Hw _] & _).
  exists wd', r'. repeat split; assumption.
Defined.

(** ** The lighting pipeline *)

Lemma usesDestroyed_calls dead cs rest :
  usesDestroyed dead (map EvReproject cs ++ rest) =
  existsb (fun c => optMemRef (rc_source c) dead || memRef (rc_target c) dead)
    cs
  || usesDestroyed dead rest.
Proof.
  induction cs as [|c cs IH]; [reflexivity|].
  cbn [map app usesDestroyed existsb]. rewrite IH.
  now rewrite orb_assoc.
Qed.

Lemma build_usesDestroyed dead device label ts options cs amb :
  usesDestroyed dead
    (atlasBuildEvents device label (atlasEvents ts options) cs amb) =
  existsb (fun c => optMemRef (rc_source c) dead || memRef (rc_target c) dead)
    (cs ++ [amb]).
Proof.
  unfold atlasBuildEvents, atlasEvents.
  destruct (optField options opt_target); cbn [app usesDestroyed];
    rewrite usesDestroyed_calls, existsb_app; cbn;
    now rewrite !orb_false_r.
Qed.

(** X16. Feeding the result of [generateLightingSource] to
    [generateAtlas] (with no target, or with a target that existed
    beforehand) runs to completion with ten [reprojectTexture] calls; the
    last eight read the lighting cubemap, which is alive, 128 wide and
    mipmapped, and write the atlas.  No call names a texture destroyed
    earlier in the run, and the caller's source is left as it was. *)
Theorem lightingPipeline_safe (wd : World) source s options :
  textures wd !! source = Some s ->
  (forall t, optField options opt_target = Some t ->
             (t < length (textures wd))%nat) ->
  exists atlas wd' evs lighting l,
    lightingPipeline source options wd = Ok atlas wd' evs /\
    usesDestroyed [] evs = false /\
    textures wd' !! source = Some s /\
    length (reprojectCalls evs) = 10%nat /\
    textures wd' !! lighting = Some l /\
    tex_destroyed l = false /\
    tex_mipmaps l = JsBool true /\
    tex_width l = 128 /\
    Forall (fun c => rc_source c = Some lighting /\ rc_target c = atlas)
      (drop 2 (reprojectCalls evs)).
Proof.
  destruct wd as [ts vs]; cbn [textures]; intros Hs Htarget.
  destruct (generateLightingSource_run ts vs source s Hs)
    as (c & Hrun & _ & _ & _ & _ & _ & _ & _ & Hwidth & _).
  unfold lightingPipeline. rewrite bind_run, Hrun. cbn [logBefore].
  assert (Hl : (ts ++ [destroyed c; promotedTexture c]) !! S (length ts) =
               Some (promotedTexture c)).
  { change (ts ++ [destroyed c; promotedTexture c])
      with (ts ++ [destroyed c] ++ [promotedTexture c]).
    rewrite app_assoc. apply list_lookup_middle.
    rewrite length_app. cbn. lia. }
  rewrite (generateAtlas_build _ _ _ _ _ Hl). cbn [logBefore].
  set (ts' := ts ++ [destroyed c; promotedTexture c]) in *.
  assert (Hatlas : Nat.eqb (atlasResult ts' options) (length ts) = false).
  { apply Nat.eqb_neq. unfold atlasResult.
    destruct (optField options opt_target) as [t|] eqn:Ht.
    - specialize (Htarget t eq_refl). lia.
    - subst ts'. rewrite length_app. cbn. lia. }
  assert (Hsrc : Nat.eqb (S (length ts)) (length ts) = false)
    by (apply Nat.eqb_neq; lia).
  eexists _, _, _, (S (length ts)), (promotedTexture c).
  split; [reflexivity|].
  split.
  { cbn [app usesDestroyed plainCall rc_source rc_target optMemRef memRef
         existsb orb].
    rewrite build_usesDestroyed. unfold ambientCall.
    destruct (truthy (optLegacyAmbient options));
      cbn [app blurryCalls existsb rc_source rc_target optMemRef memRef];
      rewrite Hatlas, Hsrc; reflexivity. }
  cbn [textures].
  split; [apply atlasStore_keeps; subst ts'; now apply lookup_app_l_Some|].
  split.
  { cbn [app reprojectCalls]. rewrite build_calls. reflexivity. }
  split; [apply atlasStore_keeps; exact Hl|].
  split; [reflexivity|]. split; [reflexivity|].
  split.
  { exact Hwidth. }
  cbn [app reprojectCalls]. rewrite build_calls. cbn [drop].
  unfold ambientCall.
  destruct (truthy (optLegacyAmbient options)); cbn; repeat constructor.
Qed.

Lemma lightingPipeline_safe_witness :
  textures smallTargetWorld !! 0%nat = Some sampleSource /\
  (forall t, optField smallTargetOptions opt_target = Some t ->
             (t < length (textures smallTargetWorld))%nat) /\
  exists atlas wd' evs,
    lightingPipeline 0%nat smallTargetOptions smallTargetWorld =
      Ok atlas wd' evs /\
    usesDestroyed [] evs = false /\
    length (reprojectCalls evs) = 10%nat.
Proof.
  assert (Htarget : forall t,
             optField smallTargetOptions opt_target = Some t ->
             (t < length (textures smallTargetWorld))%nat).
  { intros t Ht. cbn in Ht. inversion Ht. cbn. lia. }
  split; [reflexivity|]. split; [exact Htarget|].
  destruct (lightingPipeline_safe smallTargetWorld 0%nat sampleSource
              smallTargetOptions eq_refl Htarget)
    as (atlas & wd' & evs & lighting & l & Hrun & Hsafe & _ & Hlen & _).
  exists atlas, wd', evs. repeat split; assumption.
Defined.
